(** * Magic Unicorn TTS: the synthesis execution engine

    A shallow embedding of the Python sources

      - [kokoro_mlir_integration.py]    (class [KokoroMLIRNPUIntegration])
      - [web_interface_magic_unicorn.py] ([run_synthesis_subprocess] and the
        Flask handlers [/synthesize] and [/settings]; the handlers of
        [web_interface_enhanced.py] are the same code over a settings map
        with one more key)

    together with the properties of the engine's specification.

    Conventions of the embedding:
      - a Python [str] is a [string] whose characters are code points
        below 256 (the pictographs of the log and response messages are
        left out);
      - Python floats (clock readings, rates) are exact rationals [Q]; the
        samples of a float32 array are numbers, infinities or NaN, and the
        product taken on them for the WAV file is rounded to float32;
      - a function that may raise returns a [res]; a function that also
        mutates process state (the file system, the Flask globals, the
        logger) is a state transformer [M S A], in which a raised exception
        keeps the state reached so far, as in Python;
      - calls into libraries outside the repository ([json], [subprocess],
        [kokoro_onnx], [onnxruntime], the accelerator module
        [kokoro_mlir_npu]) are the fields of an interface class, so every
        theorem holds for whatever these libraries do. *)

From Stdlib Require Import ZArith QArith Qabs Qround String Ascii List Lia DecimalString.
From stdpp Require Import base gmap strings list.
Import ListNotations.

Local Open Scope string_scope.
Local Open Scope list_scope.
Local Open Scope Z_scope.

(* ===================================================================== *)
(** ** Python prelude *)
(* ===================================================================== *)

Module Py.

(** Exceptions deriving from [Exception] that the modelled code raises or
    lets through. [OtherError] stands for any further subclass raised by a
    library, with its class name and message. *)
Inductive exn : Type :=
| Exception (msg : string)
| ValueError (msg : string)
| IndexError (index size : nat)
| KeyError (key : string)
| TypeError (msg : string)
| FileNotFoundError (path : string)
| ZeroDivisionError
| JSONDecodeError (msg : string)
| TimeoutExpired (cmd : list string) (timeout : Z)
| OtherError (cls msg : string).

Inductive res (A : Type) : Type :=
| Ok (a : A)
| Raise (e : exn).
Arguments Ok {A} a.
Arguments Raise {A} e.

Definition is_ok {A} (r : res A) : bool :=
  match r with Ok _ => true | Raise _ => false end.

(** Decimal rendering of an integer, as [str(int)] and f-strings do. *)
Definition str_int (z : Z) : string := NilZero.string_of_int (Z.to_int z).
Definition str_nat (n : nat) : string := str_int (Z.of_nat n).

(** [repr(s)] of a [str] of code points below 256: quoted with an
    apostrophe, or with a double quote when the string holds an apostrophe
    and no double quote; the quote and the backslash are escaped, and so is
    every character that is not printable. *)
Definition apostrophe : ascii := ascii_of_nat 39.
Definition double_quote : ascii := ascii_of_nat 34.
Definition backslash : ascii := ascii_of_nat 92.

Definition hex_digit (n : nat) : ascii :=
  nth n (list_ascii_of_string "0123456789abcdef") "0"%char.

Definition isprintable (c : ascii) : bool :=
  let n := nat_of_ascii c in
  ((32 <=? n) && (n <? 127) || (161 <=? n) && negb (n =? 173))%nat.

Definition repr_char (quote c : ascii) : string :=
  let n := nat_of_ascii c in
  if Ascii.eqb c quote || Ascii.eqb c backslash then String backslash (String c "")
  else if (n =? 9)%nat then String backslash "t"
  else if (n =? 10)%nat then String backslash "n"
  else if (n =? 13)%nat then String backslash "r"
  else if isprintable c then String c ""
  else String backslash
         (String "x" (String (hex_digit (n / 16)) (String (hex_digit (n mod 16)) ""))).

Definition has_char (c : ascii) (s : string) : bool :=
  existsb (Ascii.eqb c) (list_ascii_of_string s).

Definition repr_str (s : string) : string :=
  let quote := if has_char apostrophe s && negb (has_char double_quote s)
               then double_quote else apostrophe in
  String quote
    (fold_right (λ c r, repr_char quote c +:+ r) (String quote "")
       (list_ascii_of_string s)).

(** [str(l)] of a list of strings. *)
Definition repr_list (l : list string) : string :=
  "[" +:+ (fix go (l : list string) : string :=
             match l with
             | [] => ""
             | [x] => repr_str x
             | x :: r => repr_str x +:+ ", " +:+ go r
             end) l +:+ "]".

(** [str(e)] for the exceptions above (CPython 3.12 messages; the
    [IndexError] is the one of a NumPy array). *)
Definition str_exn (e : exn) : string :=
  match e with
  | Exception m | ValueError m | TypeError m | JSONDecodeError m => m
  | IndexError i n =>
      "index " +:+ str_nat i +:+ " is out of bounds for axis 0 with size " +:+ str_nat n
  | KeyError k => repr_str k
  | FileNotFoundError p => "[Errno 2] No such file or directory: " +:+ repr_str p
  | ZeroDivisionError => "float division by zero"
  | TimeoutExpired cmd timeout =>
      "Command '" +:+ repr_list cmd +:+ "' timed out after "
      +:+ str_int timeout +:+ " seconds"
  | OtherError _ m => m
  end.

(** *** State and exceptions *)

Definition M (S A : Type) : Type := S → res A * S.

Definition ret {S A} (a : A) : M S A := λ s, (Ok a, s).
Definition raise {S A} (e : exn) : M S A := λ s, (Raise e, s).
Definition bind {S A B} (m : M S A) (k : A → M S B) : M S B :=
  λ s, match m s with
       | (Ok a, s') => k a s'
       | (Raise e, s') => (Raise e, s')
       end.
Definition lift {S A} (r : res A) : M S A := λ s, (r, s).
Definition get {S} : M S S := λ s, (Ok s, s).
Definition put {S} (s : S) : M S unit := λ _, (Ok tt, s).
Definition modify {S} (f : S → S) : M S unit := λ s, (Ok tt, f s).

(** [try: body / except <classes selected by catches> as e: handler e] *)
Definition try_except {S A} (body : M S A) (catches : exn → bool)
    (handler : exn → M S A) : M S A :=
  λ s, match body s with
       | (Ok a, s') => (Ok a, s')
       | (Raise e, s') => if catches e then handler e s' else (Raise e, s')
       end.

(** [try: body / finally: cleanup]; an exception of the cleanup replaces
    the outcome of the body. *)
Definition try_finally {S A} (body : M S A) (cleanup : M S unit) : M S A :=
  λ s, match body s with
       | (r, s') =>
           match cleanup s' with
           | (Ok _, s'') => (r, s'')
           | (Raise e, s'') => (Raise e, s'')
           end
       end.

Declare Scope py_scope.
Delimit Scope py_scope with py.
Notation "'let!' x ':=' m 'in' k" := (bind m (λ x, k))
  (at level 10, x name, m at level 100, k at level 200) : py_scope.
Notation "'do!' m 'in' k" := (bind m (λ _, k))
  (at level 10, m at level 100, k at level 200) : py_scope.

(** [except Exception]: every exception of the model derives from it. *)
Definition any_Exception (_ : exn) : bool := true.
Definition only_JSONDecodeError (e : exn) : bool :=
  match e with JSONDecodeError _ => true | _ => false end.

(** *** Strings *)

(** [str.isspace] on code points below 256. *)
Definition isspace (c : ascii) : bool :=
  let n := nat_of_ascii c in
  ((9 <=? n) && (n <=? 13) || (28 <=? n) && (n <=? 32)
   || (n =? 133) || (n =? 160))%nat.

Definition is_empty (s : string) : bool :=
  match s with EmptyString => true | String _ _ => false end.

Fixpoint lstrip (s : string) : string :=
  match s with
  | EmptyString => EmptyString
  | String c r => if isspace c then lstrip r else s
  end.

Fixpoint rstrip (s : string) : string :=
  match s with
  | EmptyString => EmptyString
  | String c r =>
      let r' := rstrip r in
      if is_empty r' && isspace c then EmptyString else String c r'
  end.

(** [s.strip()] *)
Definition strip (s : string) : string := rstrip (lstrip s).

(** [s.split(sep)] for a one-character separator: never the empty list. *)
Fixpoint split (sep : ascii) (s : string) : list string :=
  match s with
  | EmptyString => [EmptyString]
  | String c r =>
      if Ascii.eqb c sep then EmptyString :: split sep r
      else match split sep r with
           | [] => [String c EmptyString]
           | w :: ws => String c w :: ws
           end
  end.

Definition startswith (c : ascii) (s : string) : bool :=
  match s with
  | String d _ => Ascii.eqb d c
  | EmptyString => false
  end.

Fixpoint endswith (c : ascii) (s : string) : bool :=
  match s with
  | EmptyString => false
  | String d EmptyString => Ascii.eqb d c
  | String _ r => endswith c r
  end.

Definition newline : ascii := ascii_of_nat 10.

(** [l[i]] on a sequence, for a non-negative index. *)
Definition getitem {A} (l : list A) (i : nat) : res A :=
  match l !! i with
  | Some x => Ok x
  | None => Raise (IndexError i (length l))
  end.

(** [sub in s] for strings. *)
Definition contains (sub s : string) : Prop :=
  ∃ pre post, s = pre +:+ sub +:+ post.

End Py.
Import Py.

Local Open Scope py_scope.

(* ===================================================================== *)
(** ** kokoro_mlir_integration.py *)
(* ===================================================================== *)

Module Integration.

(** One row of a voice's style table. *)
Definition StyleRow : Type := list Q.

(** The [voice] argument: a voice name, or a style table passed directly
    ([isinstance(voice, str)] tells them apart). *)
Inductive Voice : Type :=
| VoiceName (name : string)
| VoiceArray (style : list StyleRow).

(** A NumPy array of any number of dimensions: its shape, and its elements
    in row-major order. *)
Record ndarray : Type := {
  shape : list nat;
  flat : list Q
}.

(** [a.ndim] *)
Definition ndim (a : ndarray) : nat := length (shape a).

(** [len(a)]: the size of the first dimension; a zero-dimensional array
    has none. *)
Definition len (a : ndarray) : res nat :=
  match shape a with
  | n :: _ => Ok n
  | [] => Raise (TypeError "len() of unsized object")
  end.

(** A one-dimensional array. *)
Definition array1 (xs : list Q) : ndarray := {| shape := [length xs]; flat := xs |}.

(** A zero-dimensional array. *)
Definition array0 (x : Q) : ndarray := {| shape := []; flat := [x] |}.

(** [np.array([a])] of a zero-dimensional array [a]: one dimension, the
    same element. *)
Definition array_of_scalar (a : ndarray) : ndarray := {| shape := [1%nat]; flat := flat a |}.

(** A value that is not an array (a Python number, a NumPy scalar, a list,
    nested or not), by what the code asks of it: its [shape] attribute when
    it has one, its rendering in an f-string, and what [np.array] makes of
    it, which may be an array of any number of dimensions or an exception. *)
Record pyobject : Type := {
  obj_shape : option (list nat);
  obj_str : string;
  obj_array : res ndarray
}.

(** What a session run yields in an output slot. *)
Inductive output : Type :=
| OutArray (a : ndarray)
| OutObject (o : pyobject).

(** [isinstance(audio, np.ndarray)] *)
Definition is_ndarray (audio : output) : bool :=
  match audio with OutArray _ => true | OutObject _ => false end.

(** [if not isinstance(audio, np.ndarray): audio = np.array(audio)] *)
Definition as_array (audio : output) : res ndarray :=
  match audio with
  | OutArray a => Ok a
  | OutObject o => obj_array o
  end.

(** The [input_feed] dictionary; the key ['tokens'] may be left out. *)
Record InputFeed : Type := {
  feed_tokens : option (list (list Z));
  feed_style : StyleRow;
  feed_speed : list Q
}.

(** [kokoro_onnx.Kokoro], as far as the integration uses it. *)
Record Kokoro : Type := {
  get_voice_style : string → res (list StyleRow);
  phonemize : string → string → res string;
  tokenize : string → res (list Z);
  create : string → Voice → Q → string → res (ndarray * Z)
}.

(** [onnxruntime.InferenceSession]: the names of [get_inputs()] and
    [run(None, input_feed, None)]. *)
Record InferenceSession : Type := {
  get_inputs : list string;
  run : InputFeed → res (list output)
}.

(** [kokoro_mlir_npu.KokoroNPUAcceleratorMLIR]: the module is not part of
    the sources; its two members used here are left arbitrary. *)
Record KokoroNPUAcceleratorMLIR : Type := {
  accelerator_enabled : bool;
  accelerated_inference :
    (unit → res (list output)) → InputFeed → res (list output)
}.

(** *** Logging *)

Inductive level : Type := DEBUG | INFO | WARNING | ERROR.

(** One constructor per [logger] call site of [create_audio] and
    [_create_audio_npu_accelerated], with the values it formats. *)
Inductive log_event : Type :=
| GeneratingWithNpu
| TextPreview (preview : string)
| VoiceAndSpeed (voice : Voice) (speed : Q)
| UsingCpuFallback
| NpuGenerationFailed (e : exn)
| FallingBackToCpu
| RawAudioType (is_array : bool)
| RawAudioShape (shape : list nat)
| RawAudioValue (rendered : string)
| AudioIsScalar
| GenerationCompleted
| GenerationTime (seconds : Q)
| AudioLength (seconds : Q) (samples : nat)
| RealTimeFactor (rtf : Q).

Definition Log : Type := list (level * log_event).

Definition log (l : level) (ev : log_event) : M Log unit :=
  modify (λ lg, lg ++ [(l, ev)]).

(** *** The class *)

Record KokoroMLIRNPUIntegration : Type := {
  mlir_accelerator : KokoroNPUAcceleratorMLIR;
  acceleration_enabled : bool;
  kokoro_standard : Kokoro;
  npu_session : InferenceSession
}.

(** [session.run] is replaced by a closure that hands the original run and
    the input feed to the accelerator. *)
Definition _wrap_session_for_mlir_npu (accel : KokoroNPUAcceleratorMLIR)
    (session : InferenceSession) : InferenceSession :=
  let original_run := run session in
  let mlir_npu_accelerated_run (input_feed : InputFeed) :=
    accelerated_inference accel (λ _, original_run input_feed) input_feed in
  {| get_inputs := get_inputs session; run := mlir_npu_accelerated_run |}.

Definition _create_npu_session (accel : KokoroNPUAcceleratorMLIR)
    (enabled : bool) (ort_session : InferenceSession) : InferenceSession :=
  if enabled then _wrap_session_for_mlir_npu accel ort_session
  else ort_session.

(** [__init__], given the three library objects it constructs. *)
Definition init (accel : KokoroNPUAcceleratorMLIR) (kokoro : Kokoro)
    (ort_session : InferenceSession) : KokoroMLIRNPUIntegration :=
  let enabled := accelerator_enabled accel in
  {| mlir_accelerator := accel;
     acceleration_enabled := enabled;
     kokoro_standard := kokoro;
     npu_session := _create_npu_session accel enabled ort_session |}.

Definition _handle_npu_optimized_model (session : InferenceSession)
    (tokens : list (list Z)) (style : StyleRow) (speed : list Q)
    : res (list output) :=
  let input_names := get_inputs session in
  let input_feed :=
    if negb (bool_decide ("tokens" ∈ input_names)) then
      {| feed_tokens := None; feed_style := style; feed_speed := speed |}
    else
      {| feed_tokens := Some tokens; feed_style := style; feed_speed := speed |} in
  run session input_feed.

(** [tokens_padded = [[0, *tokens, 0]]] *)
Definition pad_tokens (tokens : list Z) : list (list Z) := [0 :: tokens ++ [0]].

(** [voice_style]: the table of a named voice, or the array passed in. *)
Definition voice_style_of (self : KokoroMLIRNPUIntegration) (voice : Voice)
    : res (list StyleRow) :=
  match voice with
  | VoiceName name => get_voice_style (kokoro_standard self) name
  | VoiceArray style => Ok style
  end.

(** [phonemes]: [if text.strip(): ... else: raise ValueError(...)] *)
Definition phonemes_of (self : KokoroMLIRNPUIntegration) (text lang : string)
    : res string :=
  if negb (is_empty (strip text)) then phonemize (kokoro_standard self) text lang
  else Raise (ValueError "Empty text provided").

(** Lines 142-167 of [_create_audio_npu_accelerated]: from the arguments to
    the model inputs [(tokens_padded, voice_for_length, speed)]. *)
Definition prepare_inputs (self : KokoroMLIRNPUIntegration)
    (text : string) (voice : Voice) (speed : Q) (lang : string)
    : res (list (list Z) * StyleRow * list Q) :=
  match voice_style_of self voice with
  | Raise e => Raise e
  | Ok voice_style =>
    match phonemes_of self text lang with
    | Raise e => Raise e
    | Ok phonemes =>
      match tokenize (kokoro_standard self) phonemes with
      | Raise e => Raise e
      | Ok tokens =>
        match getitem voice_style (length tokens) with
        | Raise e => Raise e
        | Ok voice_for_length =>
            Ok (pad_tokens tokens, voice_for_length, [speed])
        end
      end
    end
  end.

(** [rtf = generation_time / audio_duration if audio_duration > 0 else 0] *)
Definition guarded_rtf (generation_time audio_duration : Q) : Q :=
  if Qlt_le_dec 0 audio_duration then (generation_time / audio_duration)%Q
  else 0%Q.

Definition sample_rate : Z := 24000.

(** [start_time] and [end_time] are the two readings of [time.time()]. *)
Definition _create_audio_npu_accelerated (self : KokoroMLIRNPUIntegration)
    (text : string) (voice : Voice) (speed : Q) (lang : string)
    (start_time end_time : Q) : M Log (ndarray * Z) :=
  let! inputs := lift (prepare_inputs self text voice speed lang) in
  let '(tokens_padded, voice_for_length, speed1) := inputs in
  let! result := lift (_handle_npu_optimized_model (npu_session self)
                         tokens_padded voice_for_length speed1) in
  let! audio := lift (getitem result 0) in
  do! log INFO (RawAudioType (is_ndarray audio)) in
  do! (match audio with
       | OutArray a => log INFO (RawAudioShape (shape a))
       | OutObject o =>
           match obj_shape o with
           | Some s => log INFO (RawAudioShape s)
           | None => log INFO (RawAudioValue (obj_str o))
           end
       end) in
  let! audio := lift (as_array audio) in
  let! audio := (if (ndim audio =? 0)%nat then
                   do! log WARNING AudioIsScalar in ret (array_of_scalar audio)
                 else ret audio) in
  let generation_time := (end_time - start_time)%Q in
  do! log INFO GenerationCompleted in
  do! log INFO (GenerationTime generation_time) in
  let! samples := lift (len audio) in
  let audio_duration := (inject_Z (Z.of_nat samples) / inject_Z sample_rate)%Q in
  do! log INFO (AudioLength audio_duration samples) in
  let rtf := guarded_rtf generation_time audio_duration in
  do! log INFO (RealTimeFactor rtf) in
  ret (audio, sample_rate).

(** [f"{text[:50]}{'...' if len(text) > 50 else ''}"] *)
Definition text_preview (text : string) : string :=
  substring 0 50 text +:+ (if (50 <? String.length text)%nat then "..." else "").

(** The three records [create_audio] logs before the accelerated attempt. *)
Definition npu_preamble (text : string) (voice : Voice) (speed : Q) : Log :=
  [(INFO, GeneratingWithNpu);
   (INFO, TextPreview (text_preview text));
   (INFO, VoiceAndSpeed voice speed)].

Definition create_audio (self : KokoroMLIRNPUIntegration)
    (text : string) (voice : Voice) (speed : Q) (lang : string)
    (start_time end_time : Q) : M Log (ndarray * Z) :=
  try_except
    (if acceleration_enabled self then
       do! log INFO GeneratingWithNpu in
       do! log INFO (TextPreview (text_preview text)) in
       do! log INFO (VoiceAndSpeed voice speed) in
       _create_audio_npu_accelerated self text voice speed lang start_time end_time
     else
       do! log INFO UsingCpuFallback in
       lift (create (kokoro_standard self) text voice speed lang))
    any_Exception
    (λ e,
       do! log ERROR (NpuGenerationFailed e) in
       do! log INFO FallingBackToCpu in
       lift (create (kokoro_standard self) text voice speed lang)).

End Integration.

(* ===================================================================== *)
(** ** web_interface_magic_unicorn.py *)
(* ===================================================================== *)

Module Web.

(** *** JSON values and dictionaries *)

(** What [json.loads] returns and [jsonify] takes. *)
#[local] Set Warnings "-register-all".
Inductive json : Type :=
| JNull
| JBool (b : bool)
| JNum (z : Z)
| JFloat (q : Q)
| JStr (s : string)
| JArr (items : list json)
| JObj (fields : list (string * json)).

(** [d.get(key)] on the items of a dictionary. *)
Fixpoint dict_get {A} (key : string) (items : list (string * A)) : option A :=
  match items with
  | [] => None
  | (k, v) :: rest => if String.eqb k key then Some v else dict_get key rest
  end.

(** [data[key]] *)
Definition json_getitem (data : json) (key : string) : res json :=
  match data with
  | JObj fields =>
      match dict_get key fields with
      | Some v => Ok v
      | None => Raise (KeyError key)
      end
  | _ => Raise (TypeError "indices must be integers")
  end.

(** Truth value of a JSON value in an [if]. *)
Definition truthy (j : json) : bool :=
  match j with
  | JNull => false
  | JBool b => b
  | JNum z => negb (z =? 0)
  | JFloat q => negb (Qeq_bool q 0)
  | JStr s => negb (is_empty s)
  | JArr items => match items with [] => false | _ => true end
  | JObj fields => match fields with [] => false | _ => true end
  end.

(** *** Floating point *)

(** One element of a float32 array: a number, an infinity or NaN. The
    numbers are rationals, the float32 values among them. *)
Inductive float32 : Type :=
| Number (x : Q)
| Infinity (negative : bool)
| NaN.

(** NumPy on the host: the integer its C cast makes of a value that has
    none in the target type (a NaN, an infinity, a number out of range),
    which C leaves undefined. *)
Class Numpy : Type := {
  astype_invalid : float32 → Z
}.

(** [round(x)] of a float: to the nearest integer, ties to the even one. *)
Definition py_round (q : Q) : Z :=
  let f := Qfloor q in
  match (q - inject_Z f ?= 1 # 2)%Q with
  | Lt => f
  | Gt => f + 1
  | Eq => if Z.even f then f else f + 1
  end.

(** The binade of a positive rational: the [e] with [2^e <= q < 2^(e+1)]. *)
Definition binade (q : Q) : Z :=
  if Qle_bool 1 q then Z.log2 (Qfloor q) else - Z.log2_up (Qceiling (/ q)).

(** The float nearest to [q], ties to even, among the floats of [prec]
    significant bits and least exponent [emin]; [q] is below the overflow
    threshold. *)
Definition round_float (prec emin : Z) (q : Q) : Q :=
  if Qeq_bool q 0 then 0%Q
  else
    let e := Z.max (binade (Qabs q)) emin in
    let s := e - prec + 1 in
    if 0 <=? s then inject_Z (py_round (q / inject_Z (2 ^ s)) * 2 ^ s)
    else (inject_Z (py_round (q * inject_Z (2 ^ (- s)))) / inject_Z (2 ^ (- s)))%Q.

(** Rounding to float32. *)
Definition round_f32 (q : Q) : Q := round_float 24 (-126) q.

(** *** Files and process state *)

(** The worker script written by [run_synthesis_subprocess]: the f-string
    template with its two substitutions. *)
Record SynthesisScript : Type := {
  text_escaped : string;
  voice_escaped : string
}.

Record WavFile : Type := {
  nchannels : Z;
  sampwidth : Z;
  framerate : Z;
  frames : list Z
}.

Inductive file : Type :=
| NpyFile (array : list float32)
| ScriptFile (script : SynthesisScript)
| WaveFile (wav : WavFile)
| OtherFile (content : string).

Record CompletedProcess : Type := {
  returncode : Z;
  stdout : string;
  stderr : string
}.

(** One entry of [performance_metrics]. *)
Record Metric : Type := {
  metric_timestamp : string;
  metric_method : string;
  metric_voice : string;
  metric_text_length : nat;
  metric_generation_time : Q;
  metric_audio_duration : Q;
  metric_rtf : Q;
  metric_sample_rate : json
}.

(** The file system, the module globals [APP_SETTINGS] and
    [performance_metrics], and the list of worker scripts launched so far
    (a ghost field: one entry per call of [subprocess.run]). *)
Record State : Type := {
  fs : gmap string file;
  APP_SETTINGS : gmap string json;
  performance_metrics : list Metric;
  launched : list string
}.

Definition set_fs (f : gmap string file → gmap string file) (st : State) : State :=
  {| fs := f (fs st); APP_SETTINGS := APP_SETTINGS st;
     performance_metrics := performance_metrics st; launched := launched st |}.
Definition set_settings (f : gmap string json → gmap string json) (st : State) : State :=
  {| fs := fs st; APP_SETTINGS := f (APP_SETTINGS st);
     performance_metrics := performance_metrics st; launched := launched st |}.
Definition set_metrics (f : list Metric → list Metric) (st : State) : State :=
  {| fs := fs st; APP_SETTINGS := APP_SETTINGS st;
     performance_metrics := f (performance_metrics st); launched := launched st |}.
Definition set_launched (f : list string → list string) (st : State) : State :=
  {| fs := fs st; APP_SETTINGS := APP_SETTINGS st;
     performance_metrics := performance_metrics st; launched := f (launched st) |}.

(** The [json] module. *)
Class JsonLib : Type := {
  (** [json.dumps] *)
  json_dumps : json → string;
  (** [json.loads]; raises [JSONDecodeError] *)
  json_loads : string → res json
}.

(** The libraries and the operating system behind the handlers. *)
Class Platform : Type := {
  platform_json :: JsonLib;
  platform_numpy :: Numpy;
  (** [str(x)] of a value that is not a [str] *)
  py_repr : json → string;
  (** the name [tempfile.NamedTemporaryFile] picks *)
  temp_name : gmap string file → string;
  (** the child process: the interpreter run on the script at the given
      path, file system effects included; raises [TimeoutExpired] *)
  child_process : string → M (gmap string file) CompletedProcess;
  (** [logging.getLogger().setLevel(getattr(logging, name))] *)
  set_log_level : json → res unit;
  (** f-string rendering of a float with the given format spec *)
  format_float : string → Q → string
}.

(** [str(x)] *)
Definition py_str `{Platform} (x : json) : string :=
  match x with JStr s => s | _ => py_repr x end.

(** [os.unlink] *)
Definition os_unlink (path : string) : M State unit :=
  λ st, match fs st !! path with
        | Some _ => (Ok tt, set_fs (delete path) st)
        | None => (Raise (FileNotFoundError path), st)
        end.

(** [np.load] of a [.npy] file. *)
Definition np_load (path : json) : M State (list float32) :=
  λ st, match path with
        | JStr p =>
            match fs st !! p with
            | Some (NpyFile a) => (Ok a, st)
            | Some _ => (Raise (ValueError "Cannot load file containing pickled data"), st)
            | None => (Raise (FileNotFoundError p), st)
            end
        | _ => (Raise (TypeError "expected str, bytes or os.PathLike object"), st)
        end.

Definition os_unlink_json (path : json) : M State unit :=
  match path with
  | JStr p => os_unlink p
  | _ => raise (TypeError "expected str, bytes or os.PathLike object")
  end.

(** [subprocess.run([python, temp_script], capture_output=True, text=True,
    env=env, timeout=30)] *)
Definition subprocess_run `{Platform} (temp_script : string) : M State CompletedProcess :=
  λ st, let st1 := set_launched (λ l, l ++ [temp_script]) st in
        match child_process temp_script (fs st1) with
        | (r, fs') => (r, set_fs (λ _, fs') st1)
        end.

(** *** run_synthesis_subprocess *)

(** The dictionary [run_synthesis_subprocess] returns. *)
Inductive SynthesisResult : Type :=
| SynthSuccess (audio_data : list float32) (sample_rate method_used voice : json)
| SynthFailure (error : json).

Definition synthesis_success (r : SynthesisResult) : bool :=
  match r with SynthSuccess _ _ _ _ => true | SynthFailure _ => false end.

Definition synthesis_script `{JsonLib} (text voice : string) : SynthesisScript :=
  {| text_escaped := json_dumps (JStr text);
     voice_escaped := json_dumps (JStr voice) |}.

(** The first line that, stripped, starts with an opening and ends with
    a closing brace. *)
Fixpoint find_json_line (lines : list string) : option string :=
  match lines with
  | [] => None
  | line :: rest =>
      let line := strip line in
      if startswith "{" line && endswith "}" line then Some line
      else find_json_line rest
  end.

Definition quoted_outputs (result : CompletedProcess) : string :=
  "STDOUT: '" +:+ stdout result +:+ "', STDERR: '" +:+ stderr result +:+ "'".

(** Lines 289-343: what the parent makes of the finished worker. *)
Definition read_worker_result `{Platform} (result : CompletedProcess)
    : M State SynthesisResult :=
  if returncode result =? 0 then
    try_except
      (let stdout_clean := strip (stdout result) in
       if is_empty stdout_clean then
         ret (SynthFailure (JStr
           ("Subprocess returned empty output. STDERR: " +:+ stderr result)))
       else
         let lines := split newline stdout_clean in
         match find_json_line lines with
         | None =>
             ret (SynthFailure (JStr
               ("No JSON found in output. " +:+ quoted_outputs result)))
         | Some json_line =>
             let! data := lift (json_loads json_line) in
             let! success := lift (json_getitem data "success") in
             if truthy success then
               let! audio_file := lift (json_getitem data "audio_file") in
               let! audio_data := np_load audio_file in
               let! audio_file := lift (json_getitem data "audio_file") in
               do! os_unlink_json audio_file in
               let! sample_rate := lift (json_getitem data "sample_rate") in
               let! method_used := lift (json_getitem data "method_used") in
               let! voice := lift (json_getitem data "voice") in
               ret (SynthSuccess audio_data sample_rate method_used voice)
             else
               let! error := lift (json_getitem data "error") in
               ret (SynthFailure error)
         end)
      only_JSONDecodeError
      (λ e, ret (SynthFailure (JStr
         ("JSON parse error: " +:+ str_exn e +:+ ". " +:+ quoted_outputs result))))
  else
    ret (SynthFailure (JStr
      ("Subprocess failed with code " +:+ str_int (returncode result) +:+ ". "
       +:+ quoted_outputs result))).

Definition run_synthesis_subprocess `{Platform} (text voice method : string)
    : M State SynthesisResult :=
  let synthesis_script := synthesis_script text voice in
  let! temp_script :=
    (λ st, let name := temp_name (fs st) in
           (Ok name, set_fs (insert name (ScriptFile synthesis_script)) st)) in
  try_finally
    (let! result := subprocess_run temp_script in
     read_worker_result result)
    (os_unlink temp_script).

(** *** The worker script *)

(** What the script needs from its interpreter. *)
Class WorkerRuntime : Type := {
  (** [Kokoro(model_path, voices_path).create(<text>, <voice>, speed=1.0)]
      on the two escaped literals, import and construction included *)
  worker_create : string → string → res (list float32 * Z);
  (** the value of an escaped string literal *)
  literal_value : string → string;
  (** [traceback.format_exc()] *)
  format_exc : exn → string
}.

(** [audio_file = "/tmp/synthesis_result.npy"] *)
Definition audio_file : string := "/tmp/synthesis_result.npy".

(** The two dictionaries the script prints. *)
Definition success_result (audio : list float32) (sample_rate : Z) (voice : string) : json :=
  JObj [("success", JBool true);
        ("sample_rate", JNum sample_rate);
        ("audio_samples", JNum (Z.of_nat (length audio)));
        ("audio_file", JStr audio_file);
        ("method_used", JStr "Real Kokoro TTS");
        ("voice", JStr voice)].

Definition failure_result (error traceback : string) : json :=
  JObj [("success", JBool false);
        ("error", JStr error);
        ("traceback", JStr traceback)].

(** [print(json.dumps(result))] as the whole output of a run that ends. *)
Definition printed `{JsonLib} (result : json) : CompletedProcess :=
  {| returncode := 0;
     stdout := json_dumps result +:+ String newline "";
     stderr := "" |}.

(** The body of the script: what it saves and what it prints. *)
Definition worker_main `{JsonLib} `{WorkerRuntime} (script : SynthesisScript)
    : M (gmap string file) CompletedProcess :=
  λ files,
    match worker_create (text_escaped script) (voice_escaped script) with
    | Ok (audio, sample_rate) =>
        let files' := <[audio_file := NpyFile audio]> files in
        (Ok (printed (success_result audio sample_rate
                        (literal_value (voice_escaped script)))), files')
    | Raise e =>
        (Ok (printed (failure_result (str_exn e) (format_exc e))), files)
    end.

(** The child process when the interpreter runs the script at [path]
    without incident: one instance of [child_process]. *)
Definition run_script `{JsonLib} `{WorkerRuntime} (path : string)
    : M (gmap string file) CompletedProcess :=
  λ files,
    match files !! path with
    | Some (ScriptFile script) => worker_main script files
    | _ => (Ok {| returncode := 2; stdout := "";
                  stderr := "can't open file '" +:+ path +:+ "'" |}, files)
    end.

(** *** 16-bit PCM *)

(** [np.clip(x, lo, hi)] on one sample: a NaN stays one. *)
Definition clip (lo hi : Q) (x : float32) : float32 :=
  match x with
  | Number q => Number (if Qlt_le_dec q lo then lo else if Qlt_le_dec hi q then hi else q)
  | Infinity negative => Number (if negative then lo else hi)
  | NaN => NaN
  end.

(** [x * 32767] in float32: the product is rounded. *)
Definition times_32767 (x : float32) : float32 :=
  match x with
  | Number q => Number (round_f32 (q * 32767))
  | Infinity negative => Infinity negative
  | NaN => NaN
  end.

(** Conversion of a float to an integer: the fraction is dropped. *)
Definition trunc (q : Q) : Z := Z.quot (Qnum q) (Z.pos (Qden q)).

(** The 16-bit two's complement value of an integer. *)
Definition wrap_int16 (z : Z) : Z := (z + 32768) mod 65536 - 32768.

(** [.astype(np.int16)] on one element: the truncated number when it
    fits 16 bits, and otherwise whatever 16-bit value the host makes of it. *)
Definition astype_int16 `{Numpy} (x : float32) : Z :=
  match x with
  | Number q =>
      let t := trunc q in
      if (-32768 <=? t) && (t <=? 32767) then t else wrap_int16 (astype_invalid x)
  | _ => wrap_int16 (astype_invalid x)
  end.

(** [(np.clip(audio, -1.0, 1.0) * 32767).astype(np.int16)] on the float32
    array that [kokoro_onnx] returns. *)
Definition to_int16 `{Numpy} (audio : list float32) : list Z :=
  map (λ x, astype_int16 (times_32767 (clip (-1) 1 x))) audio.

(** [audio_int16.tobytes()]: two bytes per sample, low byte first. *)
Definition int16_bytes (v : Z) : list Z :=
  let u := v mod 65536 in [u mod 256; u / 256].

Definition tobytes (samples : list Z) : list Z := flat_map int16_bytes samples.

(** The reading side of the round trip, written after the specification's
    words (the sources hold no reader): the frames are read back as signed
    16-bit samples, low byte first, and rescaled by 32767. *)
Fixpoint frombuffer_int16 (frames : list Z) : list Z :=
  match frames with
  | lo :: hi :: rest =>
      let u := lo + 256 * hi in
      (if u <? 32768 then u else u - 65536) :: frombuffer_int16 rest
  | _ => []
  end.

Definition rescale (samples : list Z) : list Q :=
  map (λ v, (inject_Z v / 32767)%Q) samples.

Definition read_back (frames : list Z) : list Q :=
  rescale (frombuffer_int16 frames).

(** *** /synthesize *)

Record SynthesizeRequest : Type := {
  req_text : option string;
  req_voice : option string;
  req_method : option string
}.

(** What the handler takes from its surroundings during one request: the
    two readings of [time.time()], [uuid.uuid4().hex] and
    [datetime.now().isoformat()]. *)
Record Ambient : Type := {
  start_time : Q;
  end_time : Q;
  uuid_hex : string;
  now_isoformat : string
}.

(** A digit of [uuid.uuid4().hex]. *)
Definition is_hex_digit (c : ascii) : bool :=
  let n := nat_of_ascii c in
  ((48 <=? n) && (n <=? 57) || (97 <=? n) && (n <=? 102))%nat.

(** The 32 digits of a UUID. *)
Definition is_uuid_hex (s : string) : bool :=
  (String.length s =? 32)%nat && forallb is_hex_digit (list_ascii_of_string s).

Record Response : Type := {
  status : Z;
  body : json
}.

(** A JSON number as a Python number. *)
Definition as_number (j : json) : res Q :=
  match j with
  | JNum z => Ok (inject_Z z)
  | JFloat q => Ok q
  | JBool b => Ok (if b then 1%Q else 0%Q)
  | _ => Raise (TypeError "unsupported operand type(s)")
  end.

(** [x / y] on floats. *)
Definition truediv (x y : Q) : res Q :=
  if Qeq_bool y 0 then Raise ZeroDivisionError else Ok (x / y)%Q.

(** [wav_file.setframerate(sample_rate)]: the frame rate the writer holds
    afterwards. *)
Definition setframerate (sample_rate : json) : res Z :=
  match as_number sample_rate with
  | Raise e => Raise e
  | Ok rate =>
      if Qle_bool rate 0 then Raise (OtherError "wave.Error" "bad frame rate")
      else Ok (py_round rate)
  end.

(** [struct.pack] of one field of format [L], an unsigned 32-bit value. *)
Definition pack_L (v : Z) : res unit :=
  if (0 <=? v) && (v <? 2 ^ 32) then Ok tt
  else if (v <? 0) || (2 ^ 64 <=? v) then
    Raise (OtherError "struct.error" "argument out of range")
  else Raise (OtherError "struct.error" "'L' format requires 0 <= number <= 4294967295").

(** The fields of format [L] that [_write_header] packs, in their order:
    the length of the form, the frame rate, and the byte rate of one
    channel of 2-byte samples. *)
Definition write_header (framerate datalength : Z) : res unit :=
  match pack_L (36 + datalength) with
  | Raise e => Raise e
  | Ok _ =>
      match pack_L framerate with
      | Raise e => Raise e
      | Ok _ => pack_L (1 * framerate * 2)
      end
  end.

(** What [close()] raises while the writer holds no frame rate. *)
Definition sampling_rate_not_specified : exn :=
  OtherError "wave.Error" "sampling rate not specified".

(** The [with wave.open(audio_path, 'w')] block. Opening creates the file,
    empty. When the block is left by an exception, [close()] tries once
    more to write the header and its exception replaces the first one:
    without a frame rate (the rate was refused, or rounds to 0) that is
    [sampling rate not specified], the file staying empty; with a header
    that does not fit its 32-bit fields that is the [struct.error] again,
    each attempt having written the four bytes [RIFF] before it. *)
Definition write_wav `{Numpy} (audio_path : string) (sample_rate : json)
    (audio : list float32) : M State unit :=
  do! modify (set_fs (insert audio_path (OtherFile ""))) in
  match setframerate sample_rate with
  | Raise _ => raise sampling_rate_not_specified
  | Ok framerate =>
      let audio_int16 := to_int16 audio in
      let data := tobytes audio_int16 in
      if framerate =? 0 then raise sampling_rate_not_specified
      else
        match write_header framerate (Z.of_nat (length data)) with
        | Raise e =>
            do! modify (set_fs (insert audio_path (OtherFile "RIFFRIFF"))) in
            raise e
        | Ok _ =>
            modify (set_fs (insert audio_path (WaveFile
              {| nchannels := 1; sampwidth := 2; framerate := framerate;
                 frames := data |})))
        end
  end.

(** [deque(maxlen=n).append(x)] *)
Definition deque_append {A} (maxlen : nat) (x : A) (d : list A) : list A :=
  let d' := d ++ [x] in drop (length d' - maxlen) d'.

Definition error_response (code : Z) (message : string) : Response :=
  {| status := code;
     body := JObj [("success", JBool false); ("error", JStr message)] |}.

(** The handler. Its [logger] calls and the [socketio.emit] of the metric
    entry are left out: nothing here reads the log buffer or the socket. *)
Definition synthesize `{Platform} (request : SynthesizeRequest) (amb : Ambient)
    : M State Response :=
  try_except
    (let text := default "" (req_text request) in
     let voice := default "af_heart" (req_voice request) in
     let method := default "auto" (req_method request) in
     if is_empty (strip text) then
       ret (error_response 400 "No text provided for synthesis")
     else
       let! synthesis_result := run_synthesis_subprocess text voice method in
       match synthesis_result with
       | SynthFailure error => raise (Exception (py_str error))
       | SynthSuccess audio sample_rate _ _ =>
           let filename := "real_speech_" +:+ substring 0 8 (uuid_hex amb) +:+ ".wav" in
           let audio_path := "/tmp/" +:+ filename in
           do! write_wav audio_path sample_rate audio in
           let generation_time := (end_time amb - start_time amb)%Q in
           let! rate := lift (as_number sample_rate) in
           let! audio_duration :=
             lift (truediv (inject_Z (Z.of_nat (length audio))) rate) in
           let! rtf := lift (truediv generation_time audio_duration) in
           let metric_entry :=
             {| metric_timestamp := now_isoformat amb;
                metric_method := method;
                metric_voice := voice;
                metric_text_length := String.length text;
                metric_generation_time := generation_time;
                metric_audio_duration := audio_duration;
                metric_rtf := rtf;
                metric_sample_rate := sample_rate |} in
           do! modify (set_metrics (deque_append 100 metric_entry)) in
           ret {| status := 200;
                  body := JObj
                    [("success", JBool true);
                     ("filename", JStr filename);
                     ("metrics", JObj
                        [("generation_time", JStr (format_float ".2f" generation_time));
                         ("audio_length", JStr (format_float ".2f" audio_duration));
                         ("rtf", JStr (format_float ".3f" rtf));
                         ("method_used", JStr "Real Kokoro TTS");
                         ("voice", JStr voice);
                         ("sample_rate", sample_rate)]);
                     ("message", JStr "Real speech generated successfully!")] |}
       end)
    any_Exception
    (λ e, ret (error_response 500 ("TTS generation failed: " +:+ str_exn e))).

(** *** /settings *)

(** The initial value of [APP_SETTINGS]. *)
Definition default_settings : gmap string json :=
  list_to_map
    [("preferred_method", JStr "mlir_npu");
     ("audio_quality", JStr "high");
     ("sample_rate", JNum 24000);
     ("speed", JFloat 1);
     ("pitch", JFloat 1);
     ("auto_play", JBool true);
     ("log_level", JStr "INFO");
     ("max_text_length", JNum 1000);
     ("show_advanced", JBool false)].

(** [for key, value in data.items(): if key in APP_SETTINGS: ...] *)
Definition update_settings (data : list (string * json))
    (settings : gmap string json) : gmap string json :=
  foldl (λ acc kv, if bool_decide (is_Some (acc !! kv.1))
                   then <[kv.1 := kv.2]> acc else acc)
        settings data.

Definition settings_response (settings : gmap string json) : json :=
  JObj (map_to_list settings).

(** The handler ([logger] calls left out); an exception that leaves it is
    answered by Flask with status 500, the globals staying as they are at
    that point. *)
Definition settings `{Platform} (http_method : string)
    (data : list (string * json)) : M State Response :=
  if String.eqb http_method "POST" then
    do! modify (set_settings (update_settings data)) in
    do! (match dict_get "log_level" data with
         | Some name => lift (set_log_level name)
         | None => ret tt
         end) in
    let! st := get in
    ret {| status := 200;
           body := JObj [("success", JBool true);
                         ("settings", settings_response (APP_SETTINGS st))] |}
  else
    let! st := get in
    ret {| status := 200; body := settings_response (APP_SETTINGS st) |}.

End Web.

(* ===================================================================== *)
(** ** Backend selection *)
(* ===================================================================== *)

Module Selector.




End Selector.

(* ===================================================================== *)
(** ** Concrete libraries

    Small instances of the interfaces above, on which the definitions can
    be run. *)
(* ===================================================================== *)

Module Demo.
Import Integration Web.

Definition dq : string := String (ascii_of_nat 34) "".

(** A rendering of JSON values in the manner of [json.dumps]. *)
Fixpoint render (j : json) : string :=
  match j with
  | JNull => "null"
  | JBool b => if b then "true" else "false"
  | JNum z => str_int z
  | JFloat q => str_int (Qnum q) +:+ "/" +:+ str_int (Z.pos (Qden q))
  | JStr s => dq +:+ s +:+ dq
  | JArr items =>
      "[" +:+ (fix go (l : list json) : string :=
                 match l with
                 | [] => ""
                 | x :: r => render x +:+ (match r with [] => "" | _ => ", " end) +:+ go r
                 end) items +:+ "]"
  | JObj fields =>
      "{" +:+ (fix go (l : list (string * json)) : string :=
                 match l with
                 | [] => ""
                 | (k, v) :: r =>
                     dq +:+ k +:+ dq +:+ ": " +:+ render v
                     +:+ (match r with [] => "" | _ => ", " end) +:+ go r
                 end) fields +:+ "}"
  end.

(** A [json] library that parses exactly the renderings of [known]. *)
Definition table_json (known : list json) : JsonLib :=
  {| json_dumps := render;
     json_loads := λ s,
       match find (λ v, String.eqb (render v) s) known with
       | Some v => Ok v
       | None => Raise (JSONDecodeError "Expecting value: line 1 column 1 (char 0)")
       end |}.

Definition level_names : list string :=
  ["DEBUG"; "INFO"; "WARNING"; "ERROR"; "CRITICAL"].

(** A host whose cast makes 0 of a NaN. *)
Definition numpy : Numpy := {| astype_invalid := λ _, 0 |}.

Definition platform_of (J : JsonLib)
    (child : string → M (gmap string file) CompletedProcess) : Platform :=
  {| platform_json := J;
     platform_numpy := numpy;
     py_repr := render;
     temp_name := λ _, "/tmp/tmpq3f1x9ab.py";
     child_process := child;
     set_log_level := λ name,
       match name with
       | JStr n => if bool_decide (n ∈ level_names) then Ok tt
                   else Raise (OtherError "AttributeError" n)
       | _ => Raise (TypeError "attribute name must be string")
       end;
     format_float := λ _ q, str_int (Qfloor q) |}.

(** A worker whose engine returns [audio] at 24 kHz for every request. *)
Definition fixed_runtime (audio : list float32) : WorkerRuntime :=
  {| worker_create := λ _ _, Ok (audio, 24000);
     literal_value := λ s, substring 1 (String.length s - 2) s;
     format_exc := str_exn |}.

(** A worker whose engine returns one sample, the length of the text
    literal it is given. *)
Definition length_runtime : WorkerRuntime :=
  {| worker_create := λ text _,
       Ok ([Number (inject_Z (Z.of_nat (String.length text)))], 24000);
     literal_value := λ s, substring 1 (String.length s - 2) s;
     format_exc := str_exn |}.

(** What the worker prints on success for [audio] and [voice]. *)
Definition success_line (audio : list float32) (voice : string) : json :=
  success_result audio 24000 voice.

(** The host on which the worker runs without incident and returns [audio]. *)
Definition host (audio : list float32) (voice : string) : Platform :=
  let J := table_json [success_line audio voice] in
  platform_of J (@run_script J (fixed_runtime audio)).

(** A host whose child process always ends as [result], touching no file. *)
Definition host_with_result (known : list json) (result : CompletedProcess) : Platform :=
  platform_of (table_json known) (λ _ files, (Ok result, files)).

Definition empty_state : State :=
  {| fs := ∅; APP_SETTINGS := default_settings;
     performance_metrics := []; launched := [] |}.

Definition ambient : Ambient :=
  {| start_time := 10; end_time := 12;
     uuid_hex := "3f9a1c0e5b7d4e2a8c6f0b1d2e3f4a5b";
     now_isoformat := "2025-07-01T12:00:00" |}.

(** A worker that reports success while the artifact is not on disk. *)
Definition orphan_result : CompletedProcess :=
  {| returncode := 0;
     stdout := "UserWarning: onnxruntime provider not found" +:+ String newline ""
               +:+ render (success_line [Number (1 # 2)] "af_heart") +:+ String newline "";
     stderr := "Traceback: none" |}.

Definition orphan_host : Platform :=
  host_with_result [success_line [Number (1 # 2)] "af_heart"] orphan_result.

Definition hello_request (method : string) : SynthesizeRequest :=
  {| req_text := Some "Hello world"; req_voice := Some "af_heart";
     req_method := Some method |}.

(** *** The integration *)

Definition style_table : list StyleRow := repeat [0%Q] 510.

Definition kokoro : Kokoro :=
  {| get_voice_style := λ name,
       if String.eqb name "af_heart" then Ok style_table
       else Raise (KeyError name);
     phonemize := λ text _, Ok text;
     tokenize := λ phonemes,
       Ok (map (λ c, Z.of_nat (nat_of_ascii c)) (list_ascii_of_string phonemes));
     create := λ _ _ _ _, Ok (array1 [1 # 2; - (1 # 4)]%Q, 24000) |}.

Definition ort_session : InferenceSession :=
  {| get_inputs := ["tokens"; "style"; "speed"];
     run := λ _, Ok [OutArray (array1 [1 # 8; 1 # 4]%Q)] |}.

Definition failing_accelerator : KokoroNPUAcceleratorMLIR :=
  {| accelerator_enabled := true;
     accelerated_inference := λ _ _,
       Raise (OtherError "RuntimeError" "XRT device not responding") |}.

Definition passing_accelerator : KokoroNPUAcceleratorMLIR :=
  {| accelerator_enabled := true;
     accelerated_inference := λ default_run _, default_run tt |}.


(** A text of 510 characters, one token each. *)
Definition long_text : string := string_of_list_ascii (repeat "a"%char 510).

End Demo.

(* ===================================================================== *)
(** ** The remaining handlers of the web interface *)
(* ===================================================================== *)

Module Endpoints.
Import Web.

(** *** /audio/<filename> *)

(** [os.path.join(temp_dir, filename)]: an absolute second component
    replaces the first. *)
Definition path_join (dir filename : string) : string :=
  if startswith "/" filename then filename else dir +:+ "/" +:+ filename.

(** What the handler answers: the file it sends, or a JSON error. *)
Inductive AudioResponse : Type :=
| SentFile (content : file)
| AudioError (code : Z) (message : string).

(** [serve_audio]; the file system is only read. *)
Definition serve_audio (filename : string) (st : State) : AudioResponse :=
  let temp_dir := "/tmp" in
  let audio_path := path_join temp_dir filename in
  match fs st !! audio_path with
  | Some content => SentFile content
  | None => AudioError 404 "Audio file not found"
  end.

(** *** /metrics *)

Record MetricsResponse : Type := {
  recent : list Metric;
  total_generations : nat;
  avg_rtf : Q;
  avg_time : Q;
  methods_used : gset string
}.

(** [l[-n:]] *)
Definition last_n {A} (n : nat) (l : list A) : list A :=
  drop (length l - n) l.

(** The interpreter's float arithmetic, as far as the summary uses it: the
    sum and the quotient of two floats, each rounded to a float. *)
Class FloatArith : Type := {
  float_add : Q → Q → Q;
  float_div : Q → Q → Q
}.

(** [sum(xs)]: the additions from the left, starting from 0. *)
Definition py_sum `{FloatArith} (xs : list Q) : Q := foldl float_add 0%Q xs.

(** [sum(f(m) for m in ms) / len(ms) if ms else 0] *)
Definition average `{FloatArith} (f : Metric → Q) (ms : list Metric) : Q :=
  match ms with
  | [] => 0%Q
  | _ => float_div (py_sum (map f ms)) (inject_Z (Z.of_nat (length ms)))
  end.

Definition get_metrics `{FloatArith} (st : State) : MetricsResponse :=
  let ms := performance_metrics st in
  {| recent := last_n 20 ms;
     total_generations := length ms;
     avg_rtf := average metric_rtf ms;
     avg_time := average metric_generation_time ms;
     methods_used := list_to_set (map metric_method ms) |}.

(** *** WebLogHandler *)

Record LogEntry : Type := {
  entry_timestamp : string;
  entry_level : string;
  entry_message : string;
  entry_module : string
}.

(** The two module globals the handler writes: [log_buffer], a deque of at
    most 1000 entries, and the unbounded [log_queue]. *)
Record LogState : Type := {
  log_buffer : list LogEntry;
  log_queue : list LogEntry
}.

(** [emit]: [formatted] is the entry built from the record, or the
    exception its formatting raised, which the handler swallows. *)
Definition emit (formatted : res LogEntry) (ls : LogState) : LogState :=
  match formatted with
  | Ok log_entry =>
      {| log_buffer := deque_append 1000 log_entry (log_buffer ls);
         log_queue := log_queue ls ++ [log_entry] |}
  | Raise _ => ls
  end.

(** The entries of a run of records whose formatting did not raise. *)
Definition accepted (formatted : list (res LogEntry)) : list LogEntry :=
  omap (λ r, match r with Ok log_entry => Some log_entry | Raise _ => None end)
       formatted.

(** The handler called on each record in turn. *)
Definition emit_all (formatted : list (res LogEntry)) (ls : LogState) : LogState :=
  foldl (λ s r, emit r s) ls formatted.

(** *** The worker's line *)

(** The [json] library prints [v] as one line in braces that the parent's
    scan picks out of the worker's output, and reads that line back as [v]. *)
Definition round_trips `{JsonLib} (v : json) : Prop :=
  find_json_line (split newline (strip (stdout (printed v)))) = Some (json_dumps v)
  ∧ json_loads (json_dumps v) = Ok v.

(** *** Frames *)

(** Only the file system differs between the two states. *)
Definition fs_only (st st' : State) : Prop :=
  APP_SETTINGS st' = APP_SETTINGS st
  ∧ performance_metrics st' = performance_metrics st
  ∧ launched st' = launched st.

(** A computation that changes, at most, the file system. *)
Definition touches_fs_only {A} (m : M State A) : Prop :=
  ∀ st, fs_only st (snd (m st)).

End Endpoints.

(* ===================================================================== *)
(** ** Capability and system probes *)
(* ===================================================================== *)

Module Monitoring.
Import Web.

(** [p] is a prefix of [s]. *)
Fixpoint is_prefix (p s : string) : bool :=
  match p, s with
  | EmptyString, _ => true
  | String a p', String b s' => Ascii.eqb a b && is_prefix p' s'
  | String _ _, EmptyString => false
  end.

(** [sub in s] as a test. *)
Fixpoint is_substring (sub s : string) : bool :=
  is_prefix sub s ||
  match s with
  | EmptyString => false
  | String _ r => is_substring sub r
  end.

(** The dictionary [detect_system_status] returns. *)
Record SystemStatus : Type := {
  npu_available : bool;
  vitisai_provider : bool;
  models_loaded : nat;
  voices_available : nat;
  mlir_aie_ready : bool;
  hardware_detected : string;
  npu_readiness : string;
  acceleration_status : string;
  performance_tier : string
}.

(** What the detection asks of the host: the two commands it runs (each
    may raise), the provider list of the wrapper module it imports (the
    import may raise), and [os.path.exists]. *)
Record Probes : Type := {
  lsmod : res CompletedProcess;
  xrt_smi_examine : res CompletedProcess;
  get_available_providers : res (list string);
  path_exists : string → bool
}.

Definition project_dir : string := "/home/ucadmin/Development/kokoro_npu_project".

Definition model_files : list string :=
  [project_dir +:+ "/kokoro-v1.0.onnx";
   project_dir +:+ "/optimized_models/kokoro-npu-quantized-int8.onnx"].

Definition default_status : SystemStatus :=
  {| npu_available := false;
     vitisai_provider := false;
     models_loaded := 0;
     voices_available := 0;
     mlir_aie_ready := false;
     hardware_detected := "Unknown";
     npu_readiness := "checking";
     acceleration_status := "optimized";
     performance_tier := "excellent" |}.

(** [detect_system_status]: an exception of [lsmod] ends the detection
    with the values set so far; the inner blocks absorb their own. *)
Definition detect_system_status (p : Probes) : SystemStatus :=
  match lsmod p with
  | Raise _ => default_status
  | Ok result =>
      let npu := is_substring "amdxdna" (stdout result) in
      let hardware := if npu then "AMD Ryzen AI NPU Phoenix" else "Unknown" in
      let '(readiness, acceleration) :=
        if npu then
          match xrt_smi_examine p with
          | Ok xrt_result =>
              if (returncode xrt_result =? 0)
                 && is_substring "NPU Phoenix" (stdout xrt_result)
              then ("100%", "npu_ready")
              else ("75%", "optimized")
          | Raise _ => ("50%", "optimized")
          end
        else ("checking", "optimized") in
      let vitisai :=
        match get_available_providers p with
        | Ok providers => bool_decide ("VitisAIExecutionProvider" ∈ providers)
        | Raise _ => false
        end in
      let loaded := length (filter (λ f, path_exists p f = true) model_files) in
      let tier :=
        if (2 <=? loaded)%nat && npu then "npu_ready"
        else if (1 <=? loaded)%nat then "optimized"
        else "baseline" in
      {| npu_available := npu;
         vitisai_provider := vitisai;
         models_loaded := loaded;
         voices_available :=
           if path_exists p (project_dir +:+ "/voices-v1.0.bin") then 54%nat else 0%nat;
         mlir_aie_ready := path_exists p (project_dir +:+ "/mlir-aie/install");
         hardware_detected := hardware;
         npu_readiness := readiness;
         acceleration_status := acceleration;
         performance_tier := tier |}
  end.

(** The ['systems'] entry of [/status]. *)
Record Systems : Type := {
  systems_vitisai : string;
  systems_npu : string;
  systems_mlir_aie : string
}.

Definition ready_or_offline (b : bool) : string := if b then "ready" else "offline".

(** [get_status]: the detection's values, and the three readiness words. *)
Definition get_status (p : Probes) : SystemStatus * Systems :=
  let current_status := detect_system_status p in
  (current_status,
   {| systems_vitisai := ready_or_offline (vitisai_provider current_status);
      systems_npu := ready_or_offline (npu_available current_status);
      systems_mlir_aie := ready_or_offline (mlir_aie_ready current_status) |}).

End Monitoring.

(* ===================================================================== *)
(** ** System information (web_interface_enhanced.py) *)
(* ===================================================================== *)

Module SystemInfo.
Import Web Monitoring.

(** The degree sign, code point 176. *)
Definition degree : ascii := ascii_of_nat 176.

(** The dictionary [get_system_info] returns. *)
Record Info : Type := {
  cpu_temp : string;
  npu_util : string;
  memory_usage : string;
  disk_space : string
}.

(** What the function asks of the host: the [sensors] command (it may
    raise), and [psutil.virtual_memory().percent] (the import may raise)
    with its rendering by [:.1f]. *)
Record InfoProbes : Type := {
  sensors : res CompletedProcess;
  virtual_memory_percent : res Q;
  format_1f : Q → string
}.

(** [line.split('+')[1].split(degree)[0] if '+' in line else 'N/A'] *)
Definition temp_of_line (line : string) : res string :=
  if is_substring "+" line then
    match getitem (split "+" line) 1 with
    | Raise e => Raise e
    | Ok part => getitem (split degree part) 0
    end
  else Ok "N/A".

(** The first [try] block: the temperature of the first line that
    mentions [Tctl:]; any exception leaves the entry as it was. *)
Definition read_cpu_temp (p : InfoProbes) : string :=
  match sensors p with
  | Raise _ => "N/A"
  | Ok temp_result =>
      if (returncode temp_result =? 0) && is_substring "Tctl:" (stdout temp_result)
      then
        match List.find (is_substring "Tctl:") (split newline (stdout temp_result)) with
        | Some line =>
            match temp_of_line line with
            | Ok temp => temp +:+ String degree "C"
            | Raise _ => "N/A"
            end
        | None => "N/A"
        end
      else "N/A"
  end.

Definition get_system_info (p : InfoProbes) : Info :=
  {| cpu_temp := read_cpu_temp p;
     npu_util := "N/A";
     memory_usage :=
       match virtual_memory_percent p with
       | Ok percent => format_1f p percent +:+ "%"
       | Raise _ => "N/A"
       end;
     disk_space := "N/A" |}.

End SystemInfo.

(* ===================================================================== *)
(** ** Further concrete libraries *)
(* ===================================================================== *)

Module Samples.
Import Integration Web Endpoints Monitoring Demo.

Definition entry (message : string) : LogEntry :=
  {| entry_timestamp := "12:00:00.000"; entry_level := "INFO";
     entry_message := message; entry_module := "werkzeug" |}.

(** A worker whose engine raises. *)
Definition broken_error : exn := OtherError "RuntimeError" "voices file is corrupt".

Definition broken_runtime : WorkerRuntime :=
  {| worker_create := λ _ _, Raise broken_error;
     literal_value := λ s, substring 1 (String.length s - 2) s;
     format_exc := λ e, "Traceback (most recent call last): " +:+ str_exn e |}.

Definition broken_json : JsonLib :=
  table_json [failure_result (str_exn broken_error)
                (@format_exc broken_runtime broken_error)].

Definition broken_host : Platform :=
  platform_of broken_json (@run_script broken_json broken_runtime).

(** The interpreter of the project's virtual environment. *)
Definition python : string :=
  "/home/ucadmin/Development/kokoro_npu_project/venv/bin/python".

(** A host whose child process does not end in time. *)
Definition timeout_host : Platform :=
  platform_of (table_json [])
    (λ temp_script files, (Raise (TimeoutExpired [python; temp_script] 30), files)).

(** A worker that crashed. *)
Definition crashed_result : CompletedProcess :=
  {| returncode := 1; stdout := "loading model";
     stderr := "ImportError: libonnxruntime.so" |}.

Definition crashed_host : Platform := host_with_result [] crashed_result.

(** A session whose output is a zero-dimensional array. *)
Definition scalar_session : InferenceSession :=
  {| get_inputs := ["style"; "speed"];
     run := λ _, Ok [OutArray (array0 (1 # 2))] |}.

(** A session whose output has a batch dimension: one row of three samples. *)
Definition batch_session : InferenceSession :=
  {| get_inputs := ["tokens"; "style"; "speed"];
     run := λ _, Ok [OutArray {| shape := [1; 3]%nat;
                                 flat := [1 # 8; 1 # 4; 1 # 2]%Q |}] |}.

(** Binary64 arithmetic, below the overflow threshold. *)
Definition binary64 : FloatArith :=
  {| float_add := λ x y, round_float 53 (-1022) (x + y);
     float_div := λ x y, round_float 53 (-1022) (x / y) |}.

(** A kokoro whose CPU generation raises. *)
Definition failing_kokoro : Kokoro :=
  {| get_voice_style := get_voice_style kokoro;
     phonemize := phonemize kokoro;
     tokenize := tokenize kokoro;
     create := λ _ _ _ _, Raise (OtherError "RuntimeError" "onnxruntime session failed") |}.

(** A host with the NPU driver loaded and the runtime answering. *)
Definition npu_probes : Probes :=
  {| lsmod := Ok {| returncode := 0;
                    stdout := "amdxdna 102400 0" +:+ String newline "";
                    stderr := "" |};
     xrt_smi_examine := Ok {| returncode := 0;
                              stdout := "Device: NPU Phoenix";
                              stderr := "" |};
     get_available_providers := Ok ["CPUExecutionProvider"];
     path_exists := λ _, true |}.

(** The output of [sensors] on the development host. *)
Definition sensors_output : string :=
  "k10temp-pci-00c3" +:+ String newline ""
  +:+ "Tctl:         +45.5" +:+ String SystemInfo.degree "C" +:+ String newline "".

Definition info_probes : SystemInfo.InfoProbes :=
  {| SystemInfo.sensors := Ok {| returncode := 0; stdout := sensors_output; stderr := "" |};
     SystemInfo.virtual_memory_percent := Raise (OtherError "ModuleNotFoundError" "psutil");
     SystemInfo.format_1f := λ q, str_int (Qfloor q) |}.

End Samples.

(* ===================================================================== *)
(** ** Properties of the integration *)
(* ===================================================================== *)

Section IntegrationProperties.
Import Integration.

Variable self : KokoroMLIRNPUIntegration.
Variables (text : string) (voice : Voice) (speed : Q) (lang : string).
Variables (start_time end_time : Q).

Lemma pad_tokens_shape (tokens : list Z) :
  ∃ padded, pad_tokens tokens = [padded] ∧ padded = 0 :: tokens ++ [0] ∧
    head padded = Some 0 ∧ last padded = Some 0 ∧
    length padded = (length tokens + 2)%nat.
Proof.
  exists (0 :: tokens ++ [0]). repeat split.
  - rewrite app_comm_cons. apply last_snoc.
  - cbn. rewrite length_app. cbn. lia.
Qed.

Lemma getitem_in_range {A} (l : list A) (i : nat) :
  (i < length l)%nat → ∃ x, l !! i = Some x ∧ getitem l i = Ok x.
Proof.
  intros Hlt. destruct (lookup_lt_is_Some_2 l i Hlt) as [x Hx].
  exists x. unfold getitem. rewrite Hx. auto.
Qed.

Lemma getitem_out_of_range {A} (l : list A) (i : nat) :
  (length l <= i)%nat → getitem l i = Raise (IndexError i (length l)).
Proof.
  intros Hge. unfold getitem. rewrite (lookup_ge_None_2 l i Hge). reflexivity.
Qed.

Lemma phonemes_of_nonblank :
  is_empty (strip text) = false →
  phonemes_of self text lang = phonemize (kokoro_standard self) text lang.
Proof. intros H. unfold phonemes_of. rewrite H. reflexivity. Qed.

Lemma phonemes_of_blank :
  is_empty (strip text) = true →
  phonemes_of self text lang = Raise (ValueError "Empty text provided").
Proof. intros H. unfold phonemes_of. rewrite H. reflexivity. Qed.

(** The records of the preamble, logged one by one. *)
Lemma preamble_logged (lg : Log) {A} (k : M Log A) :
  (do! log INFO GeneratingWithNpu in
   do! log INFO (TextPreview (text_preview text)) in
   do! log INFO (VoiceAndSpeed voice speed) in k) lg
  = k (lg ++ npu_preamble text voice speed).
Proof.
  unfold bind, log, modify, npu_preamble. cbn.
  rewrite <- !app_assoc. reflexivity.
Qed.

Lemma create_audio_enabled (lg : Log) :
  acceleration_enabled self = true →
  create_audio self text voice speed lang start_time end_time lg =
  match _create_audio_npu_accelerated self text voice speed lang
          start_time end_time (lg ++ npu_preamble text voice speed) with
  | (Ok r, lg') => (Ok r, lg')
  | (Raise e, lg') =>
      (create (kokoro_standard self) text voice speed lang,
       lg' ++ [(ERROR, NpuGenerationFailed e); (INFO, FallingBackToCpu)])
  end.
Proof.
  intros Hen. unfold create_audio, try_except. rewrite Hen.
  rewrite preamble_logged.
  destruct (_create_audio_npu_accelerated _ _ _ _ _ _ _ _) as [[r|e] lg']; [reflexivity|].
  cbn. unfold bind, log, modify, lift. cbn. rewrite <- app_assoc. reflexivity.
Qed.

Lemma create_audio_disabled (lg : Log) :
  acceleration_enabled self = false →
  create_audio self text voice speed lang start_time end_time lg =
  match create (kokoro_standard self) text voice speed lang with
  | Ok r => (Ok r, lg ++ [(INFO, UsingCpuFallback)])
  | Raise e =>
      (Raise e,
       lg ++ [(INFO, UsingCpuFallback); (ERROR, NpuGenerationFailed e);
              (INFO, FallingBackToCpu)])
  end.
Proof.
  intros Hen. unfold create_audio, try_except. rewrite Hen.
  unfold bind, log, modify, lift. cbn.
  destruct (create _ _ _ _ _) as [r|e] eqn:Hc; [reflexivity|].
  cbn. rewrite <- !app_assoc. reflexivity.
Qed.

(** What [prepare_inputs] returns once the voice, the phonemizer and the
    tokenizer have answered: the style lookup alone decides. *)
Lemma prepare_inputs_staged (voice_style : list StyleRow) (phonemes : string)
    (tokens : list Z) :
  is_empty (strip text) = false →
  voice_style_of self voice = Ok voice_style →
  phonemize (kokoro_standard self) text lang = Ok phonemes →
  tokenize (kokoro_standard self) phonemes = Ok tokens →
  prepare_inputs self text voice speed lang =
  match getitem voice_style (length tokens) with
  | Ok row => Ok (pad_tokens tokens, row, [speed])
  | Raise e => Raise e
  end.
Proof.
  intros Htext Hvoice Hph Htok. unfold prepare_inputs.
  rewrite Hvoice, (phonemes_of_nonblank Htext), Hph, Htok.
  destruct (getitem voice_style (length tokens)); reflexivity.
Qed.

Lemma prepare_inputs_blank :
  is_empty (strip text) = true →
  prepare_inputs self text voice speed lang =
  match voice_style_of self voice with
  | Ok _ => Raise (ValueError "Empty text provided")
  | Raise e => Raise e
  end.
Proof.
  intros Hblank. unfold prepare_inputs.
  rewrite (phonemes_of_blank Hblank).
  destruct (voice_style_of self voice); reflexivity.
Qed.

(** An exception of the preparation leaves [_create_audio_npu_accelerated]
    as it is, nothing logged. *)
Lemma accelerated_raises_of_prepare (e : exn) (lg : Log) :
  prepare_inputs self text voice speed lang = Raise e →
  _create_audio_npu_accelerated self text voice speed lang start_time end_time lg
  = (Raise e, lg).
Proof.
  intros Hp. unfold _create_audio_npu_accelerated, bind, lift. rewrite Hp.
  reflexivity.
Qed.

(** An exception of the session run leaves it likewise. *)
Lemma accelerated_raises_of_run (tokens_padded : list (list Z)) (row : StyleRow)
    (speed1 : list Q) (e : exn) (lg : Log) :
  prepare_inputs self text voice speed lang = Ok (tokens_padded, row, speed1) →
  _handle_npu_optimized_model (npu_session self) tokens_padded row speed1 = Raise e →
  _create_audio_npu_accelerated self text voice speed lang start_time end_time lg
  = (Raise e, lg).
Proof.
  intros Hp Hrun. unfold _create_audio_npu_accelerated, bind, lift.
  rewrite Hp, Hrun. reflexivity.
Qed.

End IntegrationProperties.

Section IntegrationClaims.
Import Integration.

(** C4 (as amended). For a text that is not blank, a voice whose style table
    resolves and is longer than the token count, and a phonemizer and
    tokenizer that return, the preparation yields one padded sequence: the
    tokens between two boundary ids 0, hence first and last element 0 and
    length the token count plus 2. *)
Theorem padded_tokens_shape (self : KokoroMLIRNPUIntegration)
    (text : string) (voice : Voice) (speed : Q) (lang : string)
    (voice_style : list StyleRow) (phonemes : string) (tokens : list Z) :
  is_empty (strip text) = false →
  voice_style_of self voice = Ok voice_style →
  phonemize (kokoro_standard self) text lang = Ok phonemes →
  tokenize (kokoro_standard self) phonemes = Ok tokens →
  (length tokens < length voice_style)%nat →
  ∃ padded row,
    prepare_inputs self text voice speed lang = Ok ([padded], row, [speed]) ∧
    padded = 0 :: tokens ++ [0] ∧
    head padded = Some 0 ∧ last padded = Some 0 ∧
    length padded = (length tokens + 2)%nat.
Proof.
  intros Htext Hvoice Hph Htok Hlen.
  destruct (pad_tokens_shape tokens) as (padded & Hpad & Heq & Hhd & Hlast & Hlength).
  destruct (getitem_in_range voice_style (length tokens) Hlen) as (row & _ & Hrow).
  exists padded, row. split; [|auto].
  rewrite (prepare_inputs_staged self text voice speed lang
             voice_style phonemes tokens Htext Hvoice Hph Htok).
  rewrite Hrow, Hpad. reflexivity.
Qed.

(** C5 (as amended). The style table is indexed by the length of the
    unpadded token sequence. When that length is not below the length of
    the table, the lookup raises [IndexError] (nothing is read out of
    bounds); [create_audio] catches it, logs the failure and returns
    whatever the standard CPU generation returns on the same arguments. *)
Theorem style_lookup_by_unpadded_length (self : KokoroMLIRNPUIntegration)
    (text : string) (voice : Voice) (speed : Q) (lang : string)
    (start_time end_time : Q) (lg : Log)
    (voice_style : list StyleRow) (phonemes : string) (tokens : list Z) :
  is_empty (strip text) = false →
  voice_style_of self voice = Ok voice_style →
  phonemize (kokoro_standard self) text lang = Ok phonemes →
  tokenize (kokoro_standard self) phonemes = Ok tokens →
  (∀ row, voice_style !! length tokens = Some row →
     prepare_inputs self text voice speed lang = Ok (pad_tokens tokens, row, [speed]))
  ∧ ((length voice_style <= length tokens)%nat →
       prepare_inputs self text voice speed lang
         = Raise (IndexError (length tokens) (length voice_style))
       ∧ (acceleration_enabled self = true →
          create_audio self text voice speed lang start_time end_time lg =
          (create (kokoro_standard self) text voice speed lang,
           lg ++ npu_preamble text voice speed
              ++ [(ERROR, NpuGenerationFailed
                            (IndexError (length tokens) (length voice_style)));
                  (INFO, FallingBackToCpu)]))).
Proof.
  intros Htext Hvoice Hph Htok.
  pose proof (prepare_inputs_staged self text voice speed lang
                voice_style phonemes tokens Htext Hvoice Hph Htok) as Hprep.
  split.
  - intros row Hrow. rewrite Hprep. unfold getitem. rewrite Hrow. reflexivity.
  - intros Hlen. rewrite (getitem_out_of_range _ _ Hlen) in Hprep.
    split; [exact Hprep|].
    intros Hen. rewrite (create_audio_enabled self text voice speed lang _ _ lg Hen).
    rewrite (accelerated_raises_of_prepare self text voice speed lang _ _ _ _ Hprep).
    rewrite <- app_assoc. reflexivity.
Qed.

(** C7 (as amended). Whatever exception the accelerated attempt of
    [create_audio] raises, it is caught, the failure is logged (one record
    at level ERROR carrying the exception, one at level INFO announcing the
    fallback; none at level WARNING), and the standard CPU generation is
    called on the unchanged arguments: the outcome of the request is the
    outcome of that call, so the request fails exactly when the CPU
    generation itself raises. *)
Theorem acceleration_failure_falls_back (self : KokoroMLIRNPUIntegration)
    (text : string) (voice : Voice) (speed : Q) (lang : string)
    (start_time end_time : Q) (lg lg' : Log) (e : exn) :
  acceleration_enabled self = true →
  _create_audio_npu_accelerated self text voice speed lang start_time end_time
    (lg ++ npu_preamble text voice speed) = (Raise e, lg') →
  create_audio self text voice speed lang start_time end_time lg =
  (create (kokoro_standard self) text voice speed lang,
   lg' ++ [(ERROR, NpuGenerationFailed e); (INFO, FallingBackToCpu)]).
Proof.
  intros Hen Hacc.
  rewrite (create_audio_enabled self text voice speed lang _ _ lg Hen), Hacc.
  reflexivity.
Qed.

(** With the session wrapped by [_wrap_session_for_mlir_npu], an exception
    of the accelerator is the exception of the accelerated attempt. *)
Lemma accelerator_exception_reaches_create_audio
    (accel : KokoroNPUAcceleratorMLIR) (kokoro : Kokoro)
    (ort_session : InferenceSession)
    (text : string) (voice : Voice) (speed : Q) (lang : string)
    (start_time end_time : Q) (lg : Log)
    (tokens_padded : list (list Z)) (row : StyleRow) (speed1 : list Q) (e : exn) :
  let self := init accel kokoro ort_session in
  accelerator_enabled accel = true →
  prepare_inputs self text voice speed lang = Ok (tokens_padded, row, speed1) →
  (∀ feed, accelerated_inference accel (λ _, run ort_session feed) feed = Raise e) →
  _create_audio_npu_accelerated self text voice speed lang start_time end_time lg
  = (Raise e, lg).
Proof.
  intros self Hen Hprep Hacc.
  apply (accelerated_raises_of_run self text voice speed lang _ _
           tokens_padded row speed1 e lg Hprep).
  unfold _handle_npu_optimized_model, self, init, _create_npu_session.
  rewrite Hen. cbn. apply Hacc.
Qed.

End IntegrationClaims.

(* ===================================================================== *)
(** ** Properties of the web interface *)
(* ===================================================================== *)

Section Strings.

Lemma append_assoc (a b c : string) : (a +:+ b) +:+ c = a +:+ (b +:+ c).
Proof.
  induction a as [|x a IH]; [reflexivity|].
  change (String x ((a +:+ b) +:+ c) = String x (a +:+ (b +:+ c))).
  by rewrite IH.
Qed.

Lemma contains_prefix (sub post : string) : contains sub (sub +:+ post).
Proof. exists "", post. reflexivity. Qed.

Lemma append_empty_r (a : string) : a +:+ "" = a.
Proof.
  induction a as [|x a IH]; [reflexivity|].
  change (String x (a +:+ "") = String x a). by rewrite IH.
Qed.

Lemma contains_refl (s : string) : contains s s.
Proof. exists "", "". change (s = s +:+ ""). by rewrite append_empty_r. Qed.

Lemma contains_append_r (sub p s : string) :
  contains sub s → contains sub (p +:+ s).
Proof.
  intros (pre & post & ->). exists (p +:+ pre), post.
  by rewrite append_assoc.
Qed.

(** A string is blank when stripping leaves nothing; that is the case
    exactly when every character is white space. *)
Lemma lstrip_blank (s : string) :
  forallb isspace (list_ascii_of_string s) = true → lstrip s = "".
Proof.
  induction s as [|c s IH]; cbn; [reflexivity|].
  intros [Hc Hs]%andb_prop. rewrite Hc. auto.
Qed.

Lemma lstrip_not_blank (s : string) :
  forallb isspace (list_ascii_of_string s) = false →
  ∃ c r, lstrip s = String c r ∧ isspace c = false.
Proof.
  induction s as [|c s IH]; cbn; [discriminate|].
  destruct (isspace c) eqn:Hc; cbn; [exact IH|].
  intros _. exists c, s. auto.
Qed.

Lemma rstrip_keeps_head (c : ascii) (r : string) :
  isspace c = false → is_empty (rstrip (String c r)) = false.
Proof.
  intros Hc. cbn. rewrite Hc, andb_false_r. reflexivity.
Qed.

Lemma strip_blank_iff (s : string) :
  is_empty (strip s) = true ↔ forallb isspace (list_ascii_of_string s) = true.
Proof.
  unfold strip. split.
  - intros Hs. destruct (forallb isspace (list_ascii_of_string s)) eqn:Hall; [reflexivity|].
    destruct (lstrip_not_blank s Hall) as (c & r & Heq & Hc).
    rewrite Heq, (rstrip_keeps_head c r Hc) in Hs. discriminate.
  - intros Hall. rewrite (lstrip_blank s Hall). reflexivity.
Qed.

End Strings.

Create HintDb contains.
#[local] Hint Resolve contains_refl contains_prefix contains_append_r : contains.

Section WorkerProtocol.
Import Web.
Context `{P : Platform}.

Variable result : CompletedProcess.
Variable st : State.

(** Non-zero exit code: a failure result that quotes both streams. *)
Lemma nonzero_exit_normalised :
  returncode result ≠ 0 →
  ∃ msg, read_worker_result result st = (Ok (SynthFailure (JStr msg)), st) ∧
         contains (stdout result) msg ∧ contains (stderr result) msg.
Proof.
  intros Hcode. unfold read_worker_result.
  rewrite (proj2 (Z.eqb_neq _ _) Hcode).
  eexists. split; [reflexivity|]. unfold quoted_outputs.
  split; eauto 12 with contains.
Qed.

(** Exit code 0 and nothing but white space on the output: a failure
    result that quotes the error stream. *)
Lemma empty_output_normalised :
  returncode result = 0 →
  is_empty (strip (stdout result)) = true →
  ∃ msg, read_worker_result result st = (Ok (SynthFailure (JStr msg)), st) ∧
         contains (stderr result) msg.
Proof.
  intros Hcode Hempty. unfold read_worker_result, try_except.
  rewrite Hcode, Hempty. cbn.
  eexists. split; [reflexivity|]. eauto 12 with contains.
Qed.

(** Exit code 0 and no line in braces: a failure result that quotes both
    streams. *)
Lemma no_json_line_normalised :
  returncode result = 0 →
  is_empty (strip (stdout result)) = false →
  find_json_line (split newline (strip (stdout result))) = None →
  ∃ msg, read_worker_result result st = (Ok (SynthFailure (JStr msg)), st) ∧
         contains (stdout result) msg ∧ contains (stderr result) msg.
Proof.
  intros Hcode Hne Hfind. unfold read_worker_result, try_except.
  rewrite Hcode, Hne, Hfind. cbn.
  eexists. split; [reflexivity|]. unfold quoted_outputs.
  split; eauto 12 with contains.
Qed.

(** Exit code 0 and a line in braces that [json.loads] rejects: a failure
    result that quotes both streams. *)
Lemma unparsable_line_normalised (json_line reason : string) :
  returncode result = 0 →
  is_empty (strip (stdout result)) = false →
  find_json_line (split newline (strip (stdout result))) = Some json_line →
  json_loads json_line = Raise (JSONDecodeError reason) →
  ∃ msg, read_worker_result result st = (Ok (SynthFailure (JStr msg)), st) ∧
         contains (stdout result) msg ∧ contains (stderr result) msg.
Proof.
  intros Hcode Hne Hfind Hloads. unfold read_worker_result, try_except.
  rewrite Hcode, Hne, Hfind. unfold bind, lift. rewrite Hloads. cbn.
  eexists. split; [reflexivity|]. unfold quoted_outputs.
  split; eauto 12 with contains.
Qed.

(** Exit code 0 and a parsed line without the key ['success']: the
    [KeyError] is not caught here either. *)
Lemma incomplete_line_raises (json_line : string) (data : json) :
  returncode result = 0 →
  is_empty (strip (stdout result)) = false →
  find_json_line (split newline (strip (stdout result))) = Some json_line →
  json_loads json_line = Ok data →
  json_getitem data "success" = Raise (KeyError "success") →
  read_worker_result result st = (Raise (KeyError "success"), st).
Proof.
  intros Hcode Hne Hfind Hloads Hkey. unfold read_worker_result, try_except.
  rewrite Hcode, Hne, Hfind. unfold bind, lift. rewrite Hloads, Hkey.
  reflexivity.
Qed.

(** A success line: the artifact it names is loaded and deleted. *)
Lemma success_line_loaded (json_line path : string) (data : json)
    (flag sample_rate method_used voice : json) (audio : list float32) :
  returncode result = 0 →
  is_empty (strip (stdout result)) = false →
  find_json_line (split newline (strip (stdout result))) = Some json_line →
  json_loads json_line = Ok data →
  json_getitem data "success" = Ok flag → truthy flag = true →
  json_getitem data "audio_file" = Ok (JStr path) →
  json_getitem data "sample_rate" = Ok sample_rate →
  json_getitem data "method_used" = Ok method_used →
  json_getitem data "voice" = Ok voice →
  fs st !! path = Some (NpyFile audio) →
  read_worker_result result st =
  (Ok (SynthSuccess audio sample_rate method_used voice), set_fs (delete path) st).
Proof.
  intros Hcode Hne Hfind Hloads Hflag Htrue Hpath Hrate Hmethod Hvoice Hfile.
  unfold read_worker_result, try_except.
  rewrite Hcode, Hne, Hfind. unfold bind, lift.
  rewrite Hloads, Hflag, Htrue, Hpath. cbn. rewrite Hfile. cbn.
  rewrite Hrate, Hmethod, Hvoice. unfold os_unlink. rewrite Hfile. reflexivity.
Qed.

End WorkerProtocol.

Section WebClaims.
Import Web.
Context `{P : Platform}.

(** C3. At the input on which the claim fails: the worker has ended with
    exit code 0 and printed a success line, and the artifact the line names
    is not on disk. [np.load] raises [FileNotFoundError]; the [except]
    clause takes [json.JSONDecodeError] only, so the exception leaves the
    parent's handling instead of becoming a failure result. *)
Theorem missing_artifact_raises (result : CompletedProcess) (st : State)
    (json_line path : string) (data flag : json) :
  returncode result = 0 →
  is_empty (strip (stdout result)) = false →
  find_json_line (split newline (strip (stdout result))) = Some json_line →
  json_loads json_line = Ok data →
  json_getitem data "success" = Ok flag → truthy flag = true →
  json_getitem data "audio_file" = Ok (JStr path) →
  fs st !! path = None →
  read_worker_result result st = (Raise (FileNotFoundError path), st).
Proof.
  intros Hcode Hne Hfind Hloads Hflag Htrue Hpath Hfile.
  unfold read_worker_result, try_except.
  rewrite Hcode, Hne, Hfind. unfold bind, lift.
  rewrite Hloads, Hflag, Htrue, Hpath. cbn. rewrite Hfile. reflexivity.
Qed.

Lemma truediv_positive (x rate : Q) :
  Qle_bool rate 0 = false → truediv x rate = Ok (x / rate)%Q.
Proof.
  intros Hpos. unfold truediv.
  destruct (Qeq_bool rate 0) eqn:Heq; [|reflexivity].
  apply Qeq_bool_iff in Heq.
  assert (Hle : Qle_bool rate 0 = true) by (apply Qle_bool_iff; rewrite Heq; apply Qle_refl).
  congruence.
Qed.

(** No samples: the duration is zero and the division by it raises. *)
Lemma truediv_no_samples (generation_time rate : Q) :
  truediv generation_time (inject_Z (Z.of_nat (length (@nil float32))) / rate)
  = Raise ZeroDivisionError.
Proof. reflexivity. Qed.

(** The header fits its 32-bit fields when the frame rate is below 2^31
    and the data, with the 36 bytes before them, below 2^32. *)
Lemma write_header_fits (framerate datalength : Z) :
  1 <= framerate < 2 ^ 31 → 0 <= datalength → 36 + datalength < 2 ^ 32 →
  write_header framerate datalength = Ok tt.
Proof.
  intros Hrate Hdata Hfits. unfold write_header, pack_L.
  replace ((0 <=? 36 + datalength) && (36 + datalength <? 2 ^ 32)) with true
    by (symmetry; apply andb_true_intro; split; [apply Z.leb_le|apply Z.ltb_lt]; lia).
  replace ((0 <=? framerate) && (framerate <? 2 ^ 32)) with true
    by (symmetry; apply andb_true_intro; split; [apply Z.leb_le|apply Z.ltb_lt]; lia).
  replace ((0 <=? 1 * framerate * 2) && (1 * framerate * 2 <? 2 ^ 32)) with true
    by (symmetry; apply andb_true_intro; split; [apply Z.leb_le|apply Z.ltb_lt]; lia).
  reflexivity.
Qed.

(** Whatever [write_wav] does, it leaves the settings, the metrics and the
    list of launched workers alone. *)
Lemma write_wav_frame (path : string) (sample_rate : json) (audio : list float32)
    (st : State) :
  let st' := snd (write_wav path sample_rate audio st) in
  APP_SETTINGS st' = APP_SETTINGS st
  ∧ performance_metrics st' = performance_metrics st
  ∧ launched st' = launched st.
Proof.
  unfold write_wav, bind, modify, raise. cbn.
  destruct (setframerate sample_rate) as [framerate|e]; [|by cbn].
  destruct (framerate =? 0); [by cbn|].
  destruct (write_header _ _); by cbn.
Qed.

(** C2. At the input on which the claim fails: the worker succeeds with an
    audio array of no samples. The request is answered with status 500 and
    no metric is recorded; when the [wave] module takes the sample rate
    (it rounds to a frame rate from 1 to 2^31 - 1), the handler goes on to
    divide [generation_time] by an [audio_duration] of zero, without the
    guard that [_create_audio_npu_accelerated] has, and the error is the
    [ZeroDivisionError]. The guarded computation of the integration yields
    0 on the same duration. *)
Theorem synthesize_rtf_unguarded (request : SynthesizeRequest) (amb : Ambient)
    (st st1 : State) (sample_rate method_used voice : json) (rate : Q) :
  is_empty (strip (default "" (req_text request))) = false →
  run_synthesis_subprocess (default "" (req_text request))
    (default "af_heart" (req_voice request))
    (default "auto" (req_method request)) st
    = (Ok (SynthSuccess [] sample_rate method_used voice), st1) →
  as_number sample_rate = Ok rate →
  Qle_bool rate 0 = false →
  (∃ message,
     fst (synthesize request amb st)
       = Ok (error_response 500 ("TTS generation failed: " +:+ message))
     ∧ (1 <= py_round rate < 2 ^ 31 → message = "float division by zero"))
  ∧ performance_metrics (snd (synthesize request amb st)) = performance_metrics st1
  ∧ ∀ generation_time audio_duration,
      (audio_duration == 0)%Q →
      Integration.guarded_rtf generation_time audio_duration = 0%Q.
Proof.
  intros Htext Hrun Hrate Hpos.
  assert (Hs : ∃ message st2,
             synthesize request amb st
             = (Ok (error_response 500 ("TTS generation failed: " +:+ message)), st2)
             ∧ performance_metrics st2 = performance_metrics st1
             ∧ (1 <= py_round rate < 2 ^ 31 → message = "float division by zero")).
  { unfold synthesize, try_except. rewrite Htext. unfold bind at 1. rewrite Hrun.
    cbv beta iota zeta.
    set (path := "/tmp/" +:+ _).
    pose proof (write_wav_frame path sample_rate [] st1) as (_ & Hmetrics & _).
    unfold bind at 1.
    destruct (write_wav path sample_rate [] st1) as [[[]|e] st2] eqn:Hwav.
    - unfold bind, lift. rewrite Hrate.
      rewrite (truediv_positive _ _ Hpos), truediv_no_samples. cbn.
      exists "float division by zero", st2. repeat split; assumption.
    - cbn. exists (str_exn e), st2. split; [reflexivity|]. split; [exact Hmetrics|].
      intros Hfits. exfalso. revert Hwav.
      unfold write_wav, bind, modify, raise, setframerate.
      rewrite Hrate, Hpos.
      destruct (Z.eqb_spec (py_round rate) 0) as [Hz|_]; [lia|].
      change (Z.of_nat (length (tobytes (to_int16 [])))) with 0.
      rewrite (write_header_fits _ 0 Hfits) by lia. discriminate. }
  destruct Hs as (message & st2 & -> & Hm & Hmsg).
  split; [exists message; split; [reflexivity|exact Hmsg]|].
  split; [exact Hm|].
  intros g d Hd. unfold Integration.guarded_rtf.
  destruct (Qlt_le_dec 0 d) as [Hlt|_]; [|reflexivity].
  rewrite Hd in Hlt. exfalso. exact (Qlt_irrefl 0 Hlt).
Qed.

(** C6, the handler's half: see [blank_text_rejected]. *)
Lemma synthesize_blank (request : SynthesizeRequest) (amb : Ambient) (st : State) :
  is_empty (strip (default "" (req_text request))) = true →
  synthesize request amb st
  = (Ok (error_response 400 "No text provided for synthesis"), st).
Proof.
  intros Hblank. unfold synthesize, try_except. rewrite Hblank. reflexivity.
Qed.

(** [run_synthesis_subprocess] never reads its [method] argument. *)
Lemma run_synthesis_subprocess_ignores_method (text voice m1 m2 : string) :
  run_synthesis_subprocess text voice m1 = run_synthesis_subprocess text voice m2.
Proof. reflexivity. Qed.

End WebClaims.

Section BlankText.
Import Web Integration.
Context `{P : Platform}.

(** C6. When the text of a request is blank after stripping, [/synthesize]
    answers with status 400 and [success: false] and leaves the process
    state as it was: no worker is launched, no file written, no metric
    recorded. On the same text the accelerated pipeline raises before the
    phonemizer is called: [ValueError('Empty text provided')] when the
    voice resolves, the voice's own exception otherwise. *)
Theorem blank_text_rejected (request : SynthesizeRequest) (amb : Ambient)
    (st : State) (text : string)
    (self : KokoroMLIRNPUIntegration) (voice : Voice) (speed : Q) (lang : string)
    (start_time end_time : Q) (lg : Log) :
  default "" (req_text request) = text →
  is_empty (strip text) = true →
  synthesize request amb st
    = (Ok (error_response 400 "No text provided for synthesis"), st)
  ∧ ∃ e, _create_audio_npu_accelerated self text voice speed lang
           start_time end_time lg = (Raise e, lg)
         ∧ (∀ style, voice_style_of self voice = Ok style →
              e = ValueError "Empty text provided").
Proof.
  intros Htext Hblank. split.
  - apply synthesize_blank. by rewrite Htext.
  - pose proof (prepare_inputs_blank self text voice speed lang Hblank) as Hprep.
    destruct (voice_style_of self voice) as [style|e] eqn:Hvoice.
    + exists (ValueError "Empty text provided"). split; [|reflexivity].
      by apply accelerated_raises_of_prepare.
    + exists e. split; [|discriminate].
      by apply accelerated_raises_of_prepare.
Qed.

End BlankText.

Section Artifact.
Import Web.
Context `{J : JsonLib} `{W : WorkerRuntime}.

Lemma worker_main_success (script : SynthesisScript) (files : gmap string file)
    (audio : list float32) (rate : Z) :
  worker_create (text_escaped script) (voice_escaped script) = Ok (audio, rate) →
  worker_main script files =
  (Ok (printed (success_result audio rate (literal_value (voice_escaped script)))),
   <[audio_file := NpyFile audio]> files).
Proof. intros Hc. unfold worker_main. rewrite Hc. reflexivity. Qed.

(** C10. Whatever the two requests are, their workers save the audio to
    the one path [/tmp/synthesis_result.npy] and print that path: no other
    file is touched, the second worker overwrites what the first saved, and
    a parent that loads the artifact afterwards reads the second request's
    audio and, deleting the file, leaves none for the other parent. *)
Theorem artifact_path_shared (text1 voice1 text2 voice2 : string)
    (files : gmap string file) (audio1 audio2 : list float32) (rate1 rate2 : Z) :
  let script1 := synthesis_script text1 voice1 in
  let script2 := synthesis_script text2 voice2 in
  worker_create (text_escaped script1) (voice_escaped script1) = Ok (audio1, rate1) →
  worker_create (text_escaped script2) (voice_escaped script2) = Ok (audio2, rate2) →
  ∃ printed1 printed2 files1 files2,
    worker_main script1 files = (Ok (printed printed1), files1) ∧
    worker_main script2 files1 = (Ok (printed printed2), files2) ∧
    json_getitem printed1 "audio_file" = Ok (JStr "/tmp/synthesis_result.npy") ∧
    json_getitem printed2 "audio_file" = Ok (JStr "/tmp/synthesis_result.npy") ∧
    files1 !! "/tmp/synthesis_result.npy" = Some (NpyFile audio1) ∧
    files2 !! "/tmp/synthesis_result.npy" = Some (NpyFile audio2) ∧
    (∀ path, path ≠ "/tmp/synthesis_result.npy" → files2 !! path = files !! path) ∧
    (∀ st, fs st = files2 →
       np_load (JStr "/tmp/synthesis_result.npy") st = (Ok audio2, st) ∧
       fs (snd (os_unlink "/tmp/synthesis_result.npy" st))
         !! "/tmp/synthesis_result.npy" = None).
Proof.
  intros script1 script2 H1 H2.
  eexists _, _, _, _.
  split; [apply (worker_main_success script1 files audio1 rate1 H1)|].
  split; [apply (worker_main_success script2 _ audio2 rate2 H2)|].
  change audio_file with "/tmp/synthesis_result.npy".
  split; [reflexivity|]. split; [reflexivity|].
  split; [apply lookup_insert_eq|]. split; [apply lookup_insert_eq|].
  split.
  - intros path Hne. by rewrite !lookup_insert_ne.
  - intros st Hst.
    assert (Hfile : fs st !! "/tmp/synthesis_result.npy" = Some (NpyFile audio2))
      by (rewrite Hst; apply lookup_insert_eq).
    unfold np_load, os_unlink. rewrite Hfile. split; [reflexivity|].
    cbn. apply lookup_delete_eq.
Qed.

End Artifact.

Section Settings.
Import Web.
Context `{P : Platform}.

Lemma update_settings_dom (data : list (string * json)) (current : gmap string json) :
  dom (update_settings data current) = dom current.
Proof.
  unfold update_settings. revert current.
  induction data as [|[key value] data IH]; intros current; cbn; [reflexivity|].
  rewrite IH. case_bool_decide as Hin; [|reflexivity].
  rewrite dom_insert_L. apply subseteq_union_1_L, singleton_subseteq_l.
  by apply elem_of_dom.
Qed.

Lemma update_settings_other (data : list (string * json))
    (current : gmap string json) (key : string) :
  key ∉ data.*1 → update_settings data current !! key = current !! key.
Proof.
  unfold update_settings. revert current.
  induction data as [|[k value] data IH]; intros current Hnot; cbn; [reflexivity|].
  cbn in Hnot. apply not_elem_of_cons in Hnot as [Hne Hnot].
  rewrite (IH _ Hnot). case_bool_decide; [|reflexivity].
  by rewrite lookup_insert_ne.
Qed.

(** The state a POST leaves behind, whether the handler returns or the
    log level makes it raise. *)
Lemma settings_post_state (data : list (string * json)) (st : State) :
  snd (settings "POST" data st) = set_settings (update_settings data) st.
Proof.
  unfold settings. cbn. unfold bind, modify, lift, get, ret. cbn.
  destruct (dict_get "log_level" data) as [name|]; [|reflexivity].
  destruct (set_log_level name); reflexivity.
Qed.

(** C9. A POST to [/settings] assigns only to keys that [APP_SETTINGS]
    already has: the set of keys is the same afterwards, a key absent from
    the payload keeps its value, and nothing else of the process state
    changes. *)
Theorem settings_post_frame (data : list (string * json)) (st : State) :
  let st' := snd (settings "POST" data st) in
  dom (APP_SETTINGS st') = dom (APP_SETTINGS st)
  ∧ (∀ key, key ∉ data.*1 → APP_SETTINGS st' !! key = APP_SETTINGS st !! key)
  ∧ (∀ key, APP_SETTINGS st !! key = None → APP_SETTINGS st' !! key = None)
  ∧ fs st' = fs st ∧ performance_metrics st' = performance_metrics st.
Proof.
  intros st'. subst st'. rewrite settings_post_state. cbn.
  split; [apply update_settings_dom|].
  split; [intros key; apply update_settings_other|].
  split; [|split; reflexivity].
  intros key Hnone. apply not_elem_of_dom.
  rewrite update_settings_dom. by apply not_elem_of_dom.
Qed.

End Settings.

Section Pcm.
Import Web.
Context `{N : Numpy}.

Lemma clip_id (x : Q) :
  (-1 <= x)%Q → (x <= 1)%Q → clip (-1) 1 (Number x) = Number x.
Proof.
  intros Hlo Hhi. unfold clip.
  destruct (Qlt_le_dec x (-1)) as [H|_]; [exfalso; apply (Qlt_not_le _ _ H), Hlo|].
  destruct (Qlt_le_dec 1 x) as [H|_]; [exfalso; apply (Qlt_not_le _ _ H), Hhi|].
  reflexivity.
Qed.

(** The two bytes of a sample in range read back as the sample. *)
Lemma frombuffer_int16_bytes (v : Z) (rest : list Z) :
  -32768 <= v < 32768 →
  frombuffer_int16 (int16_bytes v ++ rest) = v :: frombuffer_int16 rest.
Proof.
  intros H. unfold int16_bytes. cbn [app frombuffer_int16].
  f_equal.
  assert (Hu : 0 <= v mod 65536 < 65536) by (apply Z.mod_pos_bound; lia).
  assert (Hneg : v < 0 → v mod 65536 = v + 65536).
  { intros Hv. symmetry. apply (Z.mod_unique _ _ (-1)); lia. }
  assert (Hpos : 0 <= v → v mod 65536 = v) by (intros Hv; apply Z.mod_small; lia).
  set (u := v mod 65536) in *.
  assert (Hd : u mod 256 + 256 * (u / 256) = u) by (pose proof (Z.div_mod u 256); lia).
  rewrite Hd.
  destruct (Z.ltb_spec u 32768); lia.
Qed.

(** Rounding to an integer stays between the floor and the ceiling. *)
Lemma py_round_between (q : Q) : Qfloor q <= py_round q <= Qceiling q.
Proof.
  unfold py_round.
  pose proof (Qfloor_le q) as Hfl. pose proof (Qle_ceiling q) as Hce.
  assert (Hfc : Qfloor q <= Qceiling q).
  { apply Qfloor_resp_le in Hce. by rewrite Qfloor_Z in Hce. }
  assert (Hup : (inject_Z (Qfloor q) < q)%Q → Qfloor q + 1 <= Qceiling q).
  { intros Hlt. assert (Qfloor q < Qceiling q); [|lia].
    rewrite Zlt_Qlt. eapply Qlt_le_trans; eassumption. }
  destruct (q - inject_Z (Qfloor q) ?= 1 # 2)%Q eqn:Hcmp.
  - apply Qeq_alt in Hcmp.
    destruct (Z.even (Qfloor q)); [lia|].
    split; [lia|]. apply Hup.
    apply Qlt_minus_iff. rewrite Hcmp. reflexivity.
  - lia.
  - apply Qgt_alt in Hcmp. split; [lia|]. apply Hup.
    apply Qlt_minus_iff. eapply Qlt_trans; [|exact Hcmp]. reflexivity.
Qed.

(** A bound on the binade of a positive number below an integer. *)
Lemma binade_le (q : Q) (m : Z) :
  (q <= inject_Z m)%Q → 0 < m → binade q <= Z.log2 m.
Proof.
  intros Hle Hm. unfold binade. destruct (Qle_bool 1 q).
  - apply Z.log2_le_mono. apply Qfloor_resp_le in Hle. by rewrite Qfloor_Z in Hle.
  - pose proof (Z.log2_up_nonneg (Qceiling (/ q))).
    pose proof (Z.log2_nonneg m). lia.
Qed.

(** Scaling by a positive integer and rounding, then scaling back, stays
    between the floor and the ceiling: these are multiples of the step. *)
Lemma rounded_multiple_between (q : Q) (n : Z) :
  0 < n →
  (inject_Z (Qfloor q) <= inject_Z (py_round (q * inject_Z n)) / inject_Z n)%Q
  ∧ (inject_Z (py_round (q * inject_Z n)) / inject_Z n <= inject_Z (Qceiling q))%Q.
Proof.
  intros Hn.
  assert (Hn' : (0 < inject_Z n)%Q) by (rewrite (Zlt_Qlt 0 n) in Hn; exact Hn).
  pose proof (py_round_between (q * inject_Z n)) as [Hlo Hhi].
  assert (Hfloor : Qfloor q * n <= Qfloor (q * inject_Z n)).
  { rewrite <- (Qfloor_Z (Qfloor q * n)). apply Qfloor_resp_le.
    rewrite inject_Z_mult. apply Qmult_le_compat_r; [apply Qfloor_le|].
    apply Qlt_le_weak, Hn'. }
  assert (Hceil : Qceiling (q * inject_Z n) <= Qceiling q * n).
  { rewrite <- (Qceiling_Z (Qceiling q * n)). apply Qceiling_resp_le.
    rewrite inject_Z_mult. apply Qmult_le_compat_r; [apply Qle_ceiling|].
    apply Qlt_le_weak, Hn'. }
  split.
  - apply Qle_shift_div_l; [exact Hn'|].
    rewrite <- inject_Z_mult, <- Zle_Qle. lia.
  - apply Qle_shift_div_r; [exact Hn'|].
    rewrite <- inject_Z_mult, <- Zle_Qle. lia.
Qed.

(** In the range of the scaled samples the float32 nearest to a number lies
    between the floor and the ceiling of the number: there the integers
    are float32 values. *)
Lemma round_f32_between (q : Q) :
  (Qabs q <= 32767)%Q →
  (inject_Z (Qfloor q) <= round_f32 q)%Q ∧ (round_f32 q <= inject_Z (Qceiling q))%Q.
Proof.
  intros Hrange. unfold round_f32, round_float.
  destruct (Qeq_bool q 0) eqn:Hzero.
  - apply Qeq_bool_iff in Hzero. split.
    + eapply Qle_trans; [apply Qfloor_le|]. rewrite Hzero. apply Qle_refl.
    + eapply Qle_trans; [|apply Qle_ceiling]. rewrite Hzero. apply Qle_refl.
  - pose proof (binade_le (Qabs q) 32767 Hrange ltac:(lia)) as Hb.
    change (Z.log2 32767) with 14 in Hb.
    set (e := Z.max (binade (Qabs q)) (-126)) in *.
    assert (He : e <= 14) by (unfold e; lia).
    destruct (Z.leb_spec 0 (e - 24 + 1)) as [Hs|Hs]; [lia|].
    apply rounded_multiple_between. apply Z.pow_pos_nonneg; lia.
Qed.

(** Dropping the fraction of a number between two integers stays
    between them. *)
Lemma trunc_between (r : Q) (a b : Z) :
  (inject_Z a <= r)%Q → (r <= inject_Z b)%Q → a <= trunc r <= b.
Proof.
  destruct r as [n d]. unfold Qle, trunc. cbn. intros Ha Hb.
  pose proof (Z.quot_rem' n (Z.pos d)) as Hqr.
  pose proof (Z.rem_bound_abs n (Z.pos d) ltac:(lia)) as Hr.
  destruct (Z.le_gt_cases 0 n) as [Hn|Hn].
  - pose proof (Z.rem_nonneg n (Z.pos d) ltac:(lia) Hn). nia.
  - pose proof (Z.rem_nonpos n (Z.pos d) ltac:(lia) ltac:(lia)). nia.
Qed.

(** The 16-bit value of a sample within [-1, 1]: it avoids -32768 and is
    off by at most one step. *)
Lemma scaled_sample (x : Q) :
  (-1 <= x)%Q → (x <= 1)%Q →
  let t := trunc (round_f32 (x * 32767)) in
  -32767 <= t <= 32767 ∧ (Qabs (x - inject_Z t / 32767) <= 1 # 32767)%Q.
Proof.
  intros Hlo Hhi t.
  assert (Hq : (Qabs (x * 32767) <= 32767)%Q).
  { apply Qabs_Qle_condition. destruct x as [a b].
    unfold Qle, Qmult, Qopp in *. cbn in *. split; nia. }
  pose proof (round_f32_between (x * 32767) Hq) as [Hfl Hce].
  pose proof (trunc_between _ _ _ Hfl Hce) as Ht. fold t in Ht.
  pose proof (Qfloor_le (x * 32767)) as Hf1.
  pose proof (Qle_ceiling (x * 32767)) as Hc1.
  pose proof (Qlt_floor (x * 32767)) as Hf2.
  pose proof (Qceiling_lt (x * 32767)) as Hc2.
  set (f := Qfloor (x * 32767)) in *. set (c := Qceiling (x * 32767)) in *.
  clearbody t f c. clear Hfl Hce Hq.
  destruct x as [a b].
  unfold Qle, Qlt, Qmult, Qopp, inject_Z in Hlo, Hhi, Hf1, Hc1, Hf2, Hc2.
  cbn in Hlo, Hhi, Hf1, Hc1, Hf2, Hc2.
  rewrite Pos.mul_1_r in Hf1, Hc1, Hf2, Hc2.
  split; [nia|].
  apply Qabs_Qle_condition.
  unfold Qle, Qminus, Qplus, Qopp, Qdiv, Qmult, Qinv, inject_Z.
  cbn. split; nia.
Qed.

Lemma tobytes_length (samples : list Z) :
  length (tobytes samples) = (2 * length samples)%nat.
Proof.
  unfold tobytes. induction samples as [|v samples IH]; [reflexivity|].
  cbn [flat_map]. rewrite length_app, IH. cbn. lia.
Qed.

Lemma to_int16_length (audio : list float32) :
  length (to_int16 audio) = length audio.
Proof. unfold to_int16. apply length_map. Qed.

(** The conversion of a sample within [-1, 1]. *)
Lemma to_int16_in_range (x : Q) :
  (-1 <= x)%Q → (x <= 1)%Q →
  astype_int16 (times_32767 (clip (-1) 1 (Number x)))
  = trunc (round_f32 (x * 32767)).
Proof.
  intros Hlo Hhi. rewrite (clip_id x Hlo Hhi). cbn [times_32767 astype_int16].
  destruct (scaled_sample x Hlo Hhi) as [Hrange _].
  destruct (Z.leb_spec (-32768) (trunc (round_f32 (x * 32767)))); [|lia].
  destruct (Z.leb_spec (trunc (round_f32 (x * 32767))) 32767); [|lia].
  reflexivity.
Qed.

(** C8. Samples within [-1, 1], converted as the handler converts them for
    the WAV file (clipped, scaled by 32767 in float32, truncated to 16
    bits, laid out low byte first), then read back as 16-bit samples and
    divided by 32767, come back within 1/32767 of the originals, sample by
    sample. *)
Theorem pcm_round_trip (audio : list Q) :
  Forall (λ x, (-1 <= x)%Q ∧ (x <= 1)%Q) audio →
  Forall2 (λ x y, (Qabs (x - y) <= 1 # 32767)%Q)
    audio (read_back (tobytes (to_int16 (map Number audio)))).
Proof.
  induction 1 as [|x audio [Hlo Hhi] _ IH]; [constructor|].
  destruct (scaled_sample x Hlo Hhi) as [Hrange Herr].
  unfold read_back, tobytes, to_int16 in *. cbn [map flat_map].
  rewrite (to_int16_in_range x Hlo Hhi).
  rewrite frombuffer_int16_bytes by lia.
  cbn [rescale map]. constructor; [exact Herr | exact IH].
Qed.

End Pcm.

Section Selection.
Import Web Integration Selector.





End Selection.

(* ===================================================================== *)
(** ** The properties on concrete inputs *)
(* ===================================================================== *)

Section Instances.
Import Web Integration Selector Demo Samples.


(** C4 as stated fails: the text is not blank and the voice is valid, but
    its 510 tokens meet a style table of 510 rows; the lookup raises and no
    padded sequence is produced. *)
Lemma padded_tokens_counterexample :
  let self := init passing_accelerator kokoro ort_session in
  is_empty (strip long_text) = false
  ∧ voice_style_of self (VoiceName "af_heart") = Ok style_table
  ∧ prepare_inputs self long_text (VoiceName "af_heart") 1 "en-us"
    = Raise (IndexError 510 510).
Proof. vm_compute. repeat split. Qed.

Lemma padded_tokens_shape_witness :
  let self := init passing_accelerator kokoro ort_session in
  ∃ padded row,
    prepare_inputs self "hi" (VoiceName "af_heart") 1 "en-us"
      = Ok ([padded], row, [1%Q]) ∧
    padded = 0 :: [104; 105] ++ [0] ∧
    head padded = Some 0 ∧ last padded = Some 0 ∧
    length padded = (length [104; 105] + 2)%nat.
Proof.
  apply (padded_tokens_shape (init passing_accelerator kokoro ort_session)
           "hi" (VoiceName "af_heart") 1 "en-us" style_table "hi" [104; 105]);
    [reflexivity | reflexivity | reflexivity | reflexivity | vm_compute; lia].
Defined.

(** C5 as stated fails: the token count is beyond the style table, and the
    caller of [create_audio] receives audio, not an error. *)
Lemma style_index_counterexample :
  let self := init passing_accelerator kokoro ort_session in
  tokenize kokoro long_text = Ok (repeat 97 510)
  ∧ (length style_table <= length (repeat 97 510))%nat
  ∧ fst (create_audio self long_text (VoiceName "af_heart") 1 "en-us" 0 1 [])
    = Ok (array1 [1 # 2; - (1 # 4)]%Q, 24000).
Proof.
  split; [vm_compute; reflexivity|]. split; [vm_compute; lia|].
  vm_compute. reflexivity.
Qed.

Lemma style_lookup_witness :
  let self := init passing_accelerator kokoro ort_session in
  let tokens := repeat 97 510 in
  (∀ row, style_table !! length tokens = Some row →
     prepare_inputs self long_text (VoiceName "af_heart") 1 "en-us"
       = Ok (pad_tokens tokens, row, [1%Q]))
  ∧ ((length style_table <= length tokens)%nat →
       prepare_inputs self long_text (VoiceName "af_heart") 1 "en-us"
         = Raise (IndexError (length tokens) (length style_table))
       ∧ (acceleration_enabled self = true →
          create_audio self long_text (VoiceName "af_heart") 1 "en-us" 0 1 [] =
          (create (kokoro_standard self) long_text (VoiceName "af_heart") 1 "en-us",
           [] ++ npu_preamble long_text (VoiceName "af_heart") 1
              ++ [(ERROR, NpuGenerationFailed
                            (IndexError (length tokens) (length style_table)));
                  (INFO, FallingBackToCpu)]))).
Proof.
  apply (style_lookup_by_unpadded_length
           (init passing_accelerator kokoro ort_session)
           long_text (VoiceName "af_heart") 1 "en-us" 0 1 []
           style_table long_text (repeat 97 510));
    vm_compute; reflexivity.
Defined.

(** C7 as stated fails: the accelerator raises and so does the CPU
    generation that [create_audio] falls back to; the request fails with
    the exception of the CPU generation, and the failure of the accelerator
    has been logged at level ERROR, no record of the log being a warning. *)
Lemma acceleration_failure_counterexample :
  let self := init failing_accelerator failing_kokoro ort_session in
  let outcome := create_audio self "hi" (VoiceName "af_heart") 1 "en-us" 0 1 [] in
  outcome
  = (Raise (OtherError "RuntimeError" "onnxruntime session failed"),
     npu_preamble "hi" (VoiceName "af_heart") 1
       ++ [(ERROR, NpuGenerationFailed
                     (OtherError "RuntimeError" "XRT device not responding"));
           (INFO, FallingBackToCpu)])
  ∧ Forall (λ record, record.1 = INFO ∨ record.1 = ERROR) (snd outcome).
Proof.
  split; [vm_compute; reflexivity|].
  vm_compute.
  repeat first [ apply List.Forall_nil
               | apply List.Forall_cons;
                 [first [left; reflexivity | right; reflexivity]|] ].
Qed.

Lemma acceleration_failure_witness :
  let self := init failing_accelerator kokoro ort_session in
  let e := OtherError "RuntimeError" "XRT device not responding" in
  acceleration_enabled self = true
  ∧ create_audio self "hi" (VoiceName "af_heart") 1 "en-us" 0 1 [] =
    (Ok (array1 [1 # 2; - (1 # 4)]%Q, 24000),
     npu_preamble "hi" (VoiceName "af_heart") 1
       ++ [(ERROR, NpuGenerationFailed e); (INFO, FallingBackToCpu)]).
Proof.
  split; [reflexivity|].
  apply (acceleration_failure_falls_back
           (init failing_accelerator kokoro ort_session)
           "hi" (VoiceName "af_heart") 1 "en-us" 0 1 []
           (npu_preamble "hi" (VoiceName "af_heart") 1)
           (OtherError "RuntimeError" "XRT device not responding"));
    reflexivity.
Defined.

Lemma missing_artifact_witness :
  returncode orphan_result = 0
  ∧ fs empty_state !! "/tmp/synthesis_result.npy" = None
  ∧ @read_worker_result orphan_host orphan_result empty_state
    = (Raise (FileNotFoundError "/tmp/synthesis_result.npy"), empty_state)
  ∧ fst (@run_synthesis_subprocess orphan_host "Hello world" "af_heart" "auto"
           empty_state)
    = Raise (FileNotFoundError "/tmp/synthesis_result.npy")
  ∧ fst (@synthesize orphan_host (hello_request "auto") ambient empty_state)
    = Ok (error_response 500
            "TTS generation failed: [Errno 2] No such file or directory: '/tmp/synthesis_result.npy'").
Proof.
  split; [reflexivity|]. split; [reflexivity|]. split.
  - apply (@missing_artifact_raises orphan_host orphan_result empty_state
             (render (success_line [Number (1 # 2)] "af_heart"))
             "/tmp/synthesis_result.npy"
             (success_line [Number (1 # 2)] "af_heart") (JBool true));
      vm_compute; reflexivity.
  - split; vm_compute; reflexivity.
Defined.

Lemma synthesize_rtf_witness :
  is_empty (strip "Hello world") = false
  ∧ py_round 24000 = 24000
  ∧ fst (@synthesize (host [] "af_heart") (hello_request "auto") ambient empty_state)
    = Ok (error_response 500 "TTS generation failed: float division by zero")
  ∧ ∃ message,
      fst (@synthesize (host [] "af_heart") (hello_request "auto") ambient empty_state)
        = Ok (error_response 500 ("TTS generation failed: " +:+ message))
      ∧ (1 <= py_round 24000 < 2 ^ 31 → message = "float division by zero").
Proof.
  split; [reflexivity|]. split; [reflexivity|]. split; [vm_compute; reflexivity|].
  refine (proj1 (@synthesize_rtf_unguarded (host [] "af_heart")
                   (hello_request "auto") ambient empty_state
                   (snd (@run_synthesis_subprocess (host [] "af_heart")
                           "Hello world" "af_heart" "auto" empty_state))
                   (JNum 24000) (JStr "Real Kokoro TTS") (JStr "af_heart")
                   24000%Q _ _ _ _));
    vm_compute; reflexivity.
Defined.

Lemma blank_text_witness :
  let request := {| req_text := Some "   "; req_voice := None; req_method := None |} in
  let self := init passing_accelerator kokoro ort_session in
  is_empty (strip "   ") = true
  ∧ @synthesize orphan_host request ambient empty_state
    = (Ok (error_response 400 "No text provided for synthesis"), empty_state)
  ∧ ∃ e, _create_audio_npu_accelerated self "   " (VoiceName "af_heart") 1 "en-us"
           0 1 [] = (Raise e, [])
         ∧ (∀ style, voice_style_of self (VoiceName "af_heart") = Ok style →
              e = ValueError "Empty text provided").
Proof.
  split; [reflexivity|].
  apply (@blank_text_rejected orphan_host
           {| req_text := Some "   "; req_voice := None; req_method := None |}
           ambient empty_state "   "
           (init passing_accelerator kokoro ort_session)
           (VoiceName "af_heart") 1 "en-us" 0 1 []);
    reflexivity.
Defined.

Lemma artifact_path_witness :
  ∃ printed1 printed2 files1 files2,
    @worker_main (table_json []) length_runtime
      (@synthesis_script (table_json []) "Hello" "af_heart") (∅ : gmap string file)
      = (Ok (@printed (table_json []) printed1), files1) ∧
    @worker_main (table_json []) length_runtime
      (@synthesis_script (table_json []) "Good morning" "am_adam") files1
      = (Ok (@printed (table_json []) printed2), files2) ∧
    json_getitem printed1 "audio_file" = Ok (JStr "/tmp/synthesis_result.npy") ∧
    json_getitem printed2 "audio_file" = Ok (JStr "/tmp/synthesis_result.npy") ∧
    files1 !! "/tmp/synthesis_result.npy" = Some (NpyFile [Number 7]) ∧
    files2 !! "/tmp/synthesis_result.npy" = Some (NpyFile [Number 14]) ∧
    (∀ path, path ≠ "/tmp/synthesis_result.npy" → files2 !! path = (∅ : gmap string file) !! path) ∧
    (∀ st, fs st = files2 →
       np_load (JStr "/tmp/synthesis_result.npy") st = (Ok [Number 14], st) ∧
       fs (snd (os_unlink "/tmp/synthesis_result.npy" st))
         !! "/tmp/synthesis_result.npy" = None).
Proof.
  apply (@artifact_path_shared (table_json []) length_runtime
           "Hello" "af_heart" "Good morning" "am_adam" ∅ [Number 7] [Number 14]
           24000 24000);
    reflexivity.
Defined.

Lemma pcm_round_trip_witness :
  let audio := [1 # 2; - (1 # 3); 1; -1; 0; 12345 # 32767]%Q in
  Forall2 (λ x y, (Qabs (x - y) <= 1 # 32767)%Q)
    audio (read_back (tobytes (@to_int16 numpy (map Number audio)))).
Proof.
  apply (@pcm_round_trip numpy [1 # 2; - (1 # 3); 1; -1; 0; 12345 # 32767]%Q).
  repeat constructor; unfold Qle; cbn; lia.
Defined.

(** The handler on the initial settings: an unknown key is dropped, a known
    one updated, the rest kept. *)
Example settings_post_example :
  let data := [("speed", JFloat (3 # 2)); ("theme", JStr "dark")] in
  let st' := snd (@settings orphan_host "POST" data empty_state) in
  APP_SETTINGS st' !! "speed" = Some (JFloat (3 # 2))
  ∧ APP_SETTINGS st' !! "theme" = None
  ∧ APP_SETTINGS st' !! "pitch" = Some (JFloat 1)
  ∧ size (APP_SETTINGS st') = 9%nat.
Proof. vm_compute. repeat split. Qed.

End Instances.

(* ===================================================================== *)
(** ** Further properties: buffers and metrics *)
(* ===================================================================== *)

Section Buffers.
Import Web Endpoints.

Lemma deque_append_length {A} (n : nat) (x : A) (d : list A) :
  length (deque_append n x d) = Nat.min (S (length d)) n.
Proof.
  unfold deque_append. rewrite length_drop, length_app. cbn [length]. lia.
Qed.

Lemma deque_append_room {A} (n : nat) (x : A) (d : list A) :
  (length d < n)%nat → deque_append n x d = d ++ [x].
Proof.
  intros Hlt. unfold deque_append. rewrite length_app. cbn.
  replace (length d + 1 - n)%nat with 0%nat by lia. reflexivity.
Qed.

Lemma last_n_short {A} (n : nat) (l : list A) :
  (length l <= n)%nat → last_n n l = l.
Proof.
  intros Hle. unfold last_n. replace (length l - n)%nat with 0%nat by lia.
  reflexivity.
Qed.

Lemma last_n_length {A} (n : nat) (l : list A) :
  length (last_n n l) = Nat.min (length l) n.
Proof. unfold last_n. rewrite length_drop. lia. Qed.


(** Appending to a truncated buffer, then truncating, is truncating the
    whole history. *)
Lemma last_n_deque_append {A} (n : nat) (x : A) (d xs : list A) :
  last_n n (deque_append n x d ++ xs) = last_n n (d ++ [x] ++ xs).
Proof.
  unfold deque_append, last_n.
  rewrite !length_app, length_drop, !length_app. cbn [length].
  destruct (decide (length d + 1 <= n)%nat) as [Hle|Hgt].
  - replace (length d + 1 - n)%nat with 0%nat by lia.
    change (drop 0 (d ++ [x])) with (d ++ [x]).
    rewrite <- app_assoc. f_equal; lia.
  - set (k := (length d + 1 - n)%nat).
    replace (length d + (1 + length xs) - n)%nat with (k + length xs)%nat by lia.
    replace (length d + 1 - k + length xs - n)%nat with (length xs) by lia.
    rewrite (app_assoc d [x] xs).
    rewrite <- drop_drop.
    rewrite (drop_app_le (d ++ [x]) xs k) by (rewrite length_app; cbn; lia).
    reflexivity.
Qed.

Lemma deque_append_fold {A} (n : nat) (d0 xs : list A) :
  (length d0 <= n)%nat →
  foldl (λ d x, deque_append n x d) d0 xs = last_n n (d0 ++ xs).
Proof.
  revert d0. induction xs as [|x xs IH]; intros d0 Hle.
  - rewrite app_nil_r. symmetry. by apply last_n_short.
  - cbn [foldl]. rewrite IH by (rewrite deque_append_length; lia).
    exact (last_n_deque_append n x d0 xs).
Qed.

End Buffers.

Section LogBuffer.
Import Web Endpoints.

(** X1. Whatever records the log handler is called on, the buffer holds
    exactly the newest 1000 entries that were formatted without an
    exception, oldest first, and the queue holds all of them; a record
    whose formatting raises changes neither. *)
Theorem log_buffer_keeps_newest (formatted : list (res LogEntry)) (ls : LogState) :
  (length (log_buffer ls) <= 1000)%nat →
  let ls' := emit_all formatted ls in
  log_buffer ls' = last_n 1000 (log_buffer ls ++ accepted formatted)
  ∧ log_queue ls' = log_queue ls ++ accepted formatted
  ∧ (length (log_buffer ls') <= 1000)%nat.
Proof.
  intros Hle ls'. subst ls'.
  assert (H : log_buffer (emit_all formatted ls)
              = last_n 1000 (log_buffer ls ++ accepted formatted)
              ∧ log_queue (emit_all formatted ls) = log_queue ls ++ accepted formatted).
  { revert ls Hle. unfold emit_all.
    induction formatted as [|[entry|e] rest IH]; intros ls Hle.
    - cbn. rewrite !app_nil_r. split; [|reflexivity].
      symmetry. by apply last_n_short.
    - cbn [foldl]. destruct (IH (emit (Ok entry) ls)) as [Hb Hq].
      { cbn. rewrite deque_append_length. lia. }
      rewrite Hb, Hq. cbn [emit log_buffer log_queue accepted omap].
      split; [apply last_n_deque_append | by rewrite <- app_assoc].
    - cbn [foldl emit]. apply (IH ls Hle). }
  destruct H as [Hb Hq]. split; [exact Hb|]. split; [exact Hq|].
  rewrite Hb, last_n_length. lia.
Qed.

End LogBuffer.

Section Metrics.
Import Web Endpoints.
Context `{F : FloatArith}.


End Metrics.

(* ===================================================================== *)
(** ** Further properties: the synthesis request *)
(* ===================================================================== *)

Section Frames.
Import Web Endpoints.
Context `{P : Platform}.

Lemma fs_only_refl (st : State) : fs_only st st.
Proof. by repeat split. Qed.

Lemma fs_only_trans (st1 st2 st3 : State) :
  fs_only st1 st2 → fs_only st2 st3 → fs_only st1 st3.
Proof.
  intros (H1 & H2 & H3) (H4 & H5 & H6). repeat split; congruence.
Qed.

Lemma fs_only_set_fs (f : gmap string file → gmap string file) (st : State) :
  fs_only st (set_fs f st).
Proof. by repeat split. Qed.

Lemma touches_ret {A} (a : A) : touches_fs_only (ret (S:=State) a).
Proof. intros st. apply fs_only_refl. Qed.

Lemma touches_raise {A} (e : exn) : touches_fs_only (raise (S:=State) (A:=A) e).
Proof. intros st. apply fs_only_refl. Qed.

Lemma touches_lift {A} (r : res A) : touches_fs_only (lift (S:=State) r).
Proof. intros st. apply fs_only_refl. Qed.

Lemma touches_bind {A B} (m : M State A) (k : A → M State B) :
  touches_fs_only m → (∀ a, touches_fs_only (k a)) →
  touches_fs_only (bind m k).
Proof.
  intros Hm Hk st. unfold bind. specialize (Hm st).
  destruct (m st) as [[a|e] st1]; cbn in *; [|exact Hm].
  exact (fs_only_trans _ _ _ Hm (Hk a st1)).
Qed.

Lemma touches_try_except {A} (body : M State A) (catches : exn → bool)
    (handler : exn → M State A) :
  touches_fs_only body → (∀ e, touches_fs_only (handler e)) →
  touches_fs_only (try_except body catches handler).
Proof.
  intros Hb Hh st. unfold try_except. specialize (Hb st).
  destruct (body st) as [[a|e] st1]; cbn in *; [exact Hb|].
  destruct (catches e); [|exact Hb].
  exact (fs_only_trans _ _ _ Hb (Hh e st1)).
Qed.

Lemma touches_os_unlink (path : string) : touches_fs_only (os_unlink path).
Proof.
  intros st. unfold os_unlink.
  destruct (fs st !! path); cbn; [apply fs_only_set_fs | apply fs_only_refl].
Qed.

Lemma touches_os_unlink_json (path : json) : touches_fs_only (os_unlink_json path).
Proof.
  destruct path; cbn; try apply touches_raise. apply touches_os_unlink.
Qed.

Lemma touches_np_load (path : json) : touches_fs_only (np_load path).
Proof.
  intros st. unfold np_load.
  destruct path; cbn; try apply fs_only_refl.
  destruct (fs st !! s) as [[]|]; apply fs_only_refl.
Qed.

Lemma touches_modify_fs (f : gmap string file → gmap string file) :
  touches_fs_only (modify (set_fs f)).
Proof. intros st. apply fs_only_set_fs. Qed.

(** The parent's reading of the worker's result touches files only. *)
Lemma touches_read_worker_result (result : CompletedProcess) :
  touches_fs_only (read_worker_result result).
Proof.
  unfold read_worker_result.
  destruct (returncode result =? 0); [|apply touches_ret].
  apply touches_try_except; [|intros; apply touches_ret].
  cbv zeta. destruct (is_empty _); [apply touches_ret|].
  destruct (find_json_line _); [|apply touches_ret].
  apply touches_bind; [apply touches_lift|intros data].
  apply touches_bind; [apply touches_lift|intros flag].
  destruct (truthy flag).
  - apply touches_bind; [apply touches_lift|intros p1].
    apply touches_bind; [apply touches_np_load|intros audio].
    apply touches_bind; [apply touches_lift|intros p2].
    apply touches_bind; [apply touches_os_unlink_json|intros _].
    apply touches_bind; [apply touches_lift|intros sr].
    apply touches_bind; [apply touches_lift|intros mu].
    apply touches_bind; [apply touches_lift|intros v].
    apply touches_ret.
  - apply touches_bind; [apply touches_lift|intros err]. apply touches_ret.
Qed.

Lemma touches_write_wav (path : string) (sample_rate : json) (audio : list float32) :
  touches_fs_only (write_wav path sample_rate audio).
Proof. intros st. apply write_wav_frame. Qed.

(** The state [run_synthesis_subprocess] leaves behind, whatever happened
    in between: one more worker on the list, the settings and the metrics
    as they were, and no script at the temporary name. *)
Lemma run_synthesis_subprocess_effects (text voice method : string) (st : State) :
  let st' := snd (run_synthesis_subprocess text voice method st) in
  APP_SETTINGS st' = APP_SETTINGS st
  ∧ performance_metrics st' = performance_metrics st
  ∧ launched st' = launched st ++ [temp_name (fs st)]
  ∧ fs st' !! temp_name (fs st) = None.
Proof.
  cbv zeta. unfold run_synthesis_subprocess, bind at 1. cbn.
  set (name := temp_name (fs st)).
  set (st0 := set_fs _ st).
  unfold try_finally, bind, subprocess_run.
  destruct (child_process name (fs (set_launched _ st0))) as [r files] eqn:Hchild.
  set (st1 := set_fs (λ _, files) (set_launched _ st0)).
  assert (H1 : APP_SETTINGS st1 = APP_SETTINGS st
               ∧ performance_metrics st1 = performance_metrics st
               ∧ launched st1 = launched st ++ [name]) by (by repeat split).
  assert (Hend : ∀ (A : Type) (r : res A) st2, fs_only st1 st2 →
            let out := match os_unlink name st2 with
                       | (Ok _, s) => (r, s)
                       | (Raise e, s) => (Raise e, s)
                       end in
            APP_SETTINGS (snd out) = APP_SETTINGS st
            ∧ performance_metrics (snd out) = performance_metrics st
            ∧ launched (snd out) = launched st ++ [name]
            ∧ fs (snd out) !! name = None).
  { intros A r0 st2 (Ha & Hb & Hc). destruct H1 as (Hd & He & Hf).
    unfold os_unlink. destruct (fs st2 !! name) eqn:Hlook; cbn.
    - repeat split; try congruence. apply lookup_delete_eq.
    - repeat split; congruence. }
  destruct r as [result|e].
  - pose proof (touches_read_worker_result result st1) as Hread.
    destruct (read_worker_result result st1) as [r2 st2]. cbn in Hread.
    apply (Hend _ r2 st2 Hread).
  - apply (Hend _ (Raise e) st1 (fs_only_refl st1)).
Qed.

End Frames.

Section SynthesizeOutcomes.
Import Web Endpoints.
Context `{P : Platform}.

Lemma truediv_duration (generation_time rate : Q) (audio : list float32) :
  audio ≠ [] → Qle_bool rate 0 = false →
  truediv generation_time (inject_Z (Z.of_nat (length audio)) / rate)
  = Ok (generation_time / (inject_Z (Z.of_nat (length audio)) / rate))%Q.
Proof.
  intros Hne Hpos. unfold truediv.
  destruct (Qeq_bool _ 0) eqn:Heq; [|reflexivity]. exfalso.
  apply Qeq_bool_iff in Heq.
  assert (Hrate : (0 < rate)%Q).
  { apply Qnot_le_lt. intros Hle. apply Qle_bool_iff in Hle. congruence. }
  assert (Hlen : (0 < inject_Z (Z.of_nat (length audio)))%Q).
  { unfold Qlt. cbn. destruct audio; [done|]. cbn [length]. lia. }
  pose proof (Qmult_lt_0_compat _ _ Hlen (Qinv_lt_0_compat _ Hrate)) as Hprod.
  unfold Qdiv in Heq. rewrite Heq in Hprod. exact (Qlt_irrefl 0 Hprod).
Qed.

#[local] Ltac answered :=
  eexists _, _; split; [reflexivity|]; cbn;
  repeat split; intros;
  try congruence; try lia; try discriminate; auto.

(** X3. [/synthesize] answers every request: no exception leaves the
    handler, and the status is 200, 400 or 500. The status is 400 exactly
    when the text is blank. A request with a text that is not blank
    launches exactly one worker, a blank one none; the settings are never
    changed; the metrics change only with a status of 200, and never grow
    beyond 100 entries. *)
Theorem synthesize_always_answers (request : SynthesizeRequest) (amb : Ambient)
    (st : State) :
  let text := default "" (req_text request) in
  ∃ resp st',
    synthesize request amb st = (Ok resp, st')
    ∧ (status resp = 200 ∨ status resp = 400 ∨ status resp = 500)
    ∧ (status resp = 400 ↔ is_empty (strip text) = true)
    ∧ APP_SETTINGS st' = APP_SETTINGS st
    ∧ launched st' = (if is_empty (strip text) then launched st
                      else launched st ++ [temp_name (fs st)])
    ∧ (status resp ≠ 200 → performance_metrics st' = performance_metrics st)
    ∧ ((length (performance_metrics st) <= 100)%nat →
       (length (performance_metrics st') <= 100)%nat).
Proof.
  intros text. subst text.
  destruct (is_empty (strip (default "" (req_text request)))) eqn:Hblank.
  { exists (error_response 400 "No text provided for synthesis"), st.
    split; [by apply synthesize_blank|]. cbn.
    repeat split; auto; try lia; try discriminate. }
  pose proof (run_synthesis_subprocess_effects
                (default "" (req_text request))
                (default "af_heart" (req_voice request))
                (default "auto" (req_method request)) st) as Heff.
  cbv zeta in Heff.
  unfold synthesize, try_except. rewrite Hblank. unfold bind at 1.
  destruct (run_synthesis_subprocess _ _ _ st) as [[[audio sr mu v|err]|e] st1];
    cbn [snd] in Heff; destruct Heff as (Hs & Hm & Hl & Hf).
  - unfold bind at 1.
    pose proof (touches_write_wav
                  ("/tmp/" +:+ "real_speech_" +:+ substring 0 8 (uuid_hex amb) +:+ ".wav")
                  sr audio st1) as Hw.
    destruct (write_wav _ sr audio st1) as [[u|e] st2]; cbn [snd] in Hw;
      destruct Hw as (Hs2 & Hm2 & Hl2).
    + unfold bind, lift, modify, ret.
      destruct (as_number sr) as [rate|e]; [|answered].
      destruct (truediv _ rate) as [duration|e]; [|answered].
      destruct (truediv _ duration) as [rtf|e]; [|answered].
      answered. rewrite deque_append_length. lia.
    + answered.
  - answered.
  - answered.
Qed.

End SynthesizeOutcomes.

Section SynthesizeSuccess.
Import Web Endpoints.
Context `{P : Platform}.

Variables (request : SynthesizeRequest) (amb : Ambient) (st st1 : State).
Variables (audio : list float32) (sample_rate method_used voice : json) (rate : Q).

Let text := default "" (req_text request).
Let filename := "real_speech_" +:+ substring 0 8 (uuid_hex amb) +:+ ".wav".
Let wav := WaveFile {| nchannels := 1; sampwidth := 2;
                       framerate := py_round rate;
                       frames := tobytes (to_int16 audio) |}.
Let generation_time := (end_time amb - start_time amb)%Q.
Let audio_duration := (inject_Z (Z.of_nat (length audio)) / rate)%Q.
Let metric_entry :=
  {| metric_timestamp := now_isoformat amb;
     metric_method := default "auto" (req_method request);
     metric_voice := default "af_heart" (req_voice request);
     metric_text_length := String.length text;
     metric_generation_time := generation_time;
     metric_audio_duration := audio_duration;
     metric_rtf := (generation_time / audio_duration)%Q;
     metric_sample_rate := sample_rate |}.

Hypothesis Htext : is_empty (strip text) = false.
Hypothesis Hrun :
  run_synthesis_subprocess text (default "af_heart" (req_voice request))
    (default "auto" (req_method request)) st
  = (Ok (SynthSuccess audio sample_rate method_used voice), st1).
Hypothesis Hrate : as_number sample_rate = Ok rate.
Hypothesis Hpos : Qle_bool rate 0 = false.
Hypothesis Hfits : 1 <= py_round rate < 2 ^ 31.
Hypothesis Hsize : 36 + 2 * Z.of_nat (length audio) < 2 ^ 32.
Hypothesis Haudio : audio ≠ [].

(** The [wave] module takes the rate and the frames. *)
Lemma write_wav_written (path : string) :
  write_wav path sample_rate audio st1
  = (Ok tt, set_fs (insert path wav) st1).
Proof.
  unfold write_wav, bind, modify, raise, setframerate. rewrite Hrate, Hpos.
  destruct (Z.eqb_spec (py_round rate) 0) as [Hz|_]; [lia|].
  rewrite write_header_fits;
    [|exact Hfits|lia|rewrite tobytes_length, to_int16_length; lia].
  cbn. unfold set_fs. cbn. do 2 f_equal. apply insert_insert_eq.
Qed.

(** The handler after a worker that succeeded with audio. *)
Lemma synthesize_success :
  ∃ resp,
    synthesize request amb st =
      (Ok resp,
       set_metrics (deque_append 100 metric_entry)
         (set_fs (insert ("/tmp/" +:+ filename) wav) st1))
    ∧ status resp = 200
    ∧ json_getitem (body resp) "success" = Ok (JBool true)
    ∧ json_getitem (body resp) "filename" = Ok (JStr filename).
Proof.
  unfold synthesize, try_except. fold text. rewrite Htext.
  unfold bind at 1. rewrite Hrun. cbv beta iota zeta.
  unfold bind at 1. rewrite write_wav_written.
  unfold bind, lift, modify, ret. rewrite Hrate.
  rewrite (truediv_positive _ _ Hpos).
  rewrite (truediv_duration _ _ _ Haudio Hpos). cbn.
  eexists. split; [reflexivity|]. repeat split; reflexivity.
Qed.

End SynthesizeSuccess.

Section SynthesizeEffects.
Import Web Endpoints.
Context `{P : Platform}.

Lemma deque_append_last {A} (n : nat) (x : A) (d : list A) :
  (0 < n)%nat → last (deque_append n x d) = Some x.
Proof.
  intros Hn. unfold deque_append.
  rewrite drop_app_le by (rewrite length_app; cbn [length]; lia).
  apply last_snoc.
Qed.

(** The first characters of a string of hex digits are hex digits. *)
Lemma substring_hex (n : nat) (s : string) :
  (n <= String.length s)%nat →
  forallb is_hex_digit (list_ascii_of_string s) = true →
  String.length (substring 0 n s) = n
  ∧ forallb is_hex_digit (list_ascii_of_string (substring 0 n s)) = true.
Proof.
  revert s. induction n as [|n IH]; intros s Hlen Hhex.
  - destruct s; by cbn.
  - destruct s as [|c s]; [cbn in Hlen; lia|].
    cbn in Hlen, Hhex. apply andb_prop in Hhex as [Hc Hs].
    destruct (IH s ltac:(lia) Hs) as [IH1 IH2].
    cbn. rewrite IH1, Hc, IH2. by split.
Qed.

(** X4. A request whose worker succeeds with at least one sample, at a
    positive rate that rounds to a frame rate from 1 to 2^31 - 1, the
    frames with their header staying below 2^32 bytes, is answered with
    status 200 and a file name [real_speech_<8 hex digits>.wav], the digits
    being the first 8 of the request's UUID. The file of that name under
    [/tmp] holds one channel of 2-byte samples at the rounded rate, its
    frames the 16-bit conversion of the audio, and [/audio/<filename>]
    sends exactly that file; no other file changes after the worker. The
    newest metric records the requested method, the length of the text and
    [rtf = generation_time / (len(audio) / sample_rate)]. *)
Theorem synthesize_success_effects (request : SynthesizeRequest) (amb : Ambient)
    (st st1 : State) (audio : list float32) (sample_rate method_used voice : json)
    (rate : Q) :
  let text := default "" (req_text request) in
  let digits := substring 0 8 (uuid_hex amb) in
  let filename := "real_speech_" +:+ digits +:+ ".wav" in
  let wav := WaveFile {| nchannels := 1; sampwidth := 2;
                         framerate := py_round rate;
                         frames := tobytes (to_int16 audio) |} in
  is_empty (strip text) = false →
  is_uuid_hex (uuid_hex amb) = true →
  run_synthesis_subprocess text (default "af_heart" (req_voice request))
    (default "auto" (req_method request)) st
    = (Ok (SynthSuccess audio sample_rate method_used voice), st1) →
  as_number sample_rate = Ok rate →
  Qle_bool rate 0 = false →
  1 <= py_round rate < 2 ^ 31 →
  36 + 2 * Z.of_nat (length audio) < 2 ^ 32 →
  audio ≠ [] →
  ∃ resp st' entry,
    synthesize request amb st = (Ok resp, st')
    ∧ status resp = 200
    ∧ json_getitem (body resp) "filename" = Ok (JStr filename)
    ∧ String.length digits = 8%nat
    ∧ forallb is_hex_digit (list_ascii_of_string digits) = true
    ∧ fs st' !! ("/tmp/" +:+ filename) = Some wav
    ∧ serve_audio filename st' = SentFile wav
    ∧ (∀ path, path ≠ "/tmp/" +:+ filename → fs st' !! path = fs st1 !! path)
    ∧ last (performance_metrics st') = Some entry
    ∧ metric_method entry = default "auto" (req_method request)
    ∧ metric_text_length entry = String.length text
    ∧ metric_rtf entry
      = ((end_time amb - start_time amb)
         / (inject_Z (Z.of_nat (length audio)) / rate))%Q.
Proof.
  intros text digits filename wav Htext Huuid Hrun Hrate Hpos Hfits Hsize Haudio.
  destruct (synthesize_success request amb st st1 audio sample_rate method_used
              voice rate Htext Hrun Hrate Hpos Hfits Hsize Haudio)
    as (resp & Hsyn & Hstatus & _ & Hname).
  unfold is_uuid_hex in Huuid. apply andb_prop in Huuid as [Hlen Hhex].
  apply Nat.eqb_eq in Hlen.
  destruct (substring_hex 8 (uuid_hex amb) ltac:(lia) Hhex) as [Hdigits Hall].
  eexists resp, _, _. split; [exact Hsyn|].
  split; [exact Hstatus|]. split; [exact Hname|].
  split; [exact Hdigits|]. split; [exact Hall|].
  split; [cbn; apply lookup_insert_eq|].
  split.
  { unfold serve_audio, path_join.
    change (startswith "/" filename) with false. cbn [fs set_metrics set_fs].
    change ("/tmp" +:+ "/" +:+ filename) with ("/tmp/" +:+ filename).
    by rewrite lookup_insert_eq. }
  split; [intros path Hne; cbn; by rewrite lookup_insert_ne|].
  split; [cbn; apply deque_append_last; lia|].
  repeat split.
Qed.

End SynthesizeEffects.

(* ===================================================================== *)
(** ** Further properties: parent and worker *)
(* ===================================================================== *)

Section ParentAndChild.
Import Web Endpoints.
Context `{P : Platform}.

Variables (text voice method : string) (st : State).

Let name := temp_name (fs st).
Let launched_state :=
  set_launched (λ l, l ++ [name])
    (set_fs (insert name (ScriptFile (synthesis_script text voice))) st).

(** [run_synthesis_subprocess] in terms of what the child process did. *)
Lemma run_synthesis_subprocess_unfold (r : res CompletedProcess)
    (files : gmap string file) :
  child_process name (fs launched_state) = (r, files) →
  run_synthesis_subprocess text voice method st =
  let st2 := set_fs (λ _, files) launched_state in
  let out := match r with
             | Ok result => read_worker_result result st2
             | Raise e => (Raise e, st2)
             end in
  match os_unlink name (snd out) with
  | (Ok _, s) => (fst out, s)
  | (Raise e, s) => (Raise e, s)
  end.
Proof.
  intros Hchild. unfold run_synthesis_subprocess, bind at 1. cbn.
  unfold try_finally, bind, subprocess_run. fold name. fold launched_state.
  rewrite Hchild. cbv zeta.
  destruct r as [result|e]; [|reflexivity].
  destruct (read_worker_result result _) as [r2 st3]. reflexivity.
Qed.

Lemma find_json_line_nonempty (s line : string) :
  find_json_line (split newline s) = Some line → is_empty s = false.
Proof. destruct s; [discriminate | reflexivity]. Qed.

(** A line that reports failure: its error is the failure result. *)
Lemma failure_line_read (result : CompletedProcess) (st0 : State)
    (json_line : string) (data flag error : json) :
  returncode result = 0 →
  find_json_line (split newline (strip (stdout result))) = Some json_line →
  json_loads json_line = Ok data →
  json_getitem data "success" = Ok flag → truthy flag = false →
  json_getitem data "error" = Ok error →
  read_worker_result result st0 = (Ok (SynthFailure error), st0).
Proof.
  intros Hcode Hfind Hloads Hflag Hfalse Herror.
  unfold read_worker_result, try_except.
  rewrite Hcode, (find_json_line_nonempty _ _ Hfind), Hfind. unfold bind, lift.
  rewrite Hloads, Hflag, Hfalse, Herror. reflexivity.
Qed.

End ParentAndChild.

Section WorkerRoundTrip.
Import Web Endpoints.
Context `{P : Platform} `{W : WorkerRuntime}.

Variables (text voice method : string) (st : State).

Let script := synthesis_script text voice.
Let name := temp_name (fs st).

(** The child process is the interpreter running the script. *)
Hypothesis Hchild : ∀ path files, child_process path files = run_script path files.

Lemma child_runs_script :
  child_process name
    (fs (set_launched (λ l, l ++ [name])
           (set_fs (insert name (ScriptFile script)) st)))
  = worker_main script (<[name := ScriptFile script]> (fs st)).
Proof.
  rewrite Hchild. unfold run_script. cbn. by rewrite lookup_insert_eq.
Qed.

Lemma worker_main_failure (files : gmap string file) (e : exn) :
  worker_create (text_escaped script) (voice_escaped script) = Raise e →
  worker_main script files
  = (Ok (printed (failure_result (str_exn e) (format_exc e))), files).
Proof. intros Hc. unfold worker_main. rewrite Hc. reflexivity. Qed.

(** X5. When the worker's engine returns audio, and the [json] library
    round-trips the line the worker prints, the parent returns that very
    audio with the engine's sample rate, the method label
    [Real Kokoro TTS] and the worker's voice. Afterwards neither the
    temporary script nor the artifact is on disk, and every other file is
    as it was. *)
Theorem worker_success_round_trip (audio : list float32) (rate : Z) :
  let voice' := literal_value (voice_escaped script) in
  worker_create (text_escaped script) (voice_escaped script) = Ok (audio, rate) →
  round_trips (success_result audio rate voice') →
  name ≠ audio_file →
  ∃ st',
    run_synthesis_subprocess text voice method st
      = (Ok (SynthSuccess audio (JNum rate) (JStr "Real Kokoro TTS") (JStr voice')),
         st')
    ∧ fs st' !! name = None
    ∧ fs st' !! audio_file = None
    ∧ (∀ path, path ≠ name → path ≠ audio_file → fs st' !! path = fs st !! path).
Proof.
  intros voice' Hcreate [Hfind Hloads] Hname.
  pose proof child_runs_script as Hrun.
  rewrite (worker_main_success script _ audio rate Hcreate) in Hrun.
  rewrite (run_synthesis_subprocess_unfold text voice method st _ _ Hrun).
  cbv zeta.
  erewrite (success_line_loaded _ _ _ audio_file _ (JBool true));
    [ | reflexivity | exact (find_json_line_nonempty _ _ Hfind) | exact Hfind
      | exact Hloads | reflexivity | reflexivity | reflexivity | reflexivity
      | reflexivity | reflexivity | cbn; apply lookup_insert_eq ].
  cbn [fst snd]. unfold os_unlink. cbn [fs set_fs set_launched].
  rewrite lookup_delete_ne by (intros Heq; apply Hname; by rewrite Heq).
  rewrite lookup_insert_ne by (intros Heq; apply Hname; by rewrite Heq).
  rewrite lookup_insert_eq.
  eexists. split; [reflexivity|]. cbn [fs set_fs set_launched].
  split; [apply lookup_delete_eq|].
  split.
  - rewrite lookup_delete_ne by done. apply lookup_delete_eq.
  - intros path Hp1 Hp2.
    by rewrite !lookup_delete_ne, !lookup_insert_ne.
Qed.

(** X6. When the worker's engine raises, the worker writes no file and
    prints a failure line; the parent returns the failure with the text of
    the exception, and [/synthesize] answers 500 with
    [TTS generation failed: <that text>]. Only the temporary script, which
    is removed, ever differed on disk. *)
Theorem worker_failure_reported (request : SynthesizeRequest) (amb : Ambient)
    (e : exn) :
  default "" (req_text request) = text →
  default "af_heart" (req_voice request) = voice →
  default "auto" (req_method request) = method →
  is_empty (strip text) = false →
  worker_create (text_escaped script) (voice_escaped script) = Raise e →
  round_trips (failure_result (str_exn e) (format_exc e)) →
  ∃ st',
    run_synthesis_subprocess text voice method st
      = (Ok (SynthFailure (JStr (str_exn e))), st')
    ∧ synthesize request amb st
      = (Ok (error_response 500 ("TTS generation failed: " +:+ str_exn e)), st')
    ∧ fs st' !! name = None
    ∧ (∀ path, path ≠ name → fs st' !! path = fs st !! path).
Proof.
  intros Htext Hvoice Hmethod Hnonblank Hcreate [Hfind Hloads].
  pose proof child_runs_script as Hrun.
  rewrite (worker_main_failure _ e Hcreate) in Hrun.
  pose proof (run_synthesis_subprocess_unfold text voice method st _ _ Hrun) as Hsub.
  cbv beta iota zeta in Hsub.
  erewrite (failure_line_read _ _ _ _ (JBool false)) in Hsub;
    [ | reflexivity | exact Hfind | exact Hloads | reflexivity | reflexivity
      | reflexivity ].
  cbn [fst snd] in Hsub. unfold os_unlink in Hsub.
  cbn [fs set_fs set_launched] in Hsub.
  rewrite lookup_insert_eq in Hsub.
  eexists. split; [exact Hsub|].
  split.
  - unfold synthesize, try_except. rewrite Htext, Hvoice, Hmethod, Hnonblank.
    unfold bind at 1. rewrite Hsub. reflexivity.
  - cbn [fs set_fs set_launched]. split; [apply lookup_delete_eq|].
    intros path Hp. by rewrite lookup_delete_ne, lookup_insert_ne.
Qed.

End WorkerRoundTrip.

Section WorkerFailures.
Import Web Endpoints.
Context `{P : Platform}.

Variables (request : SynthesizeRequest) (amb : Ambient) (st : State).

Let text := default "" (req_text request).
Let voice := default "af_heart" (req_voice request).
Let method := default "auto" (req_method request).
Let name := temp_name (fs st).
Let launched_state :=
  set_launched (λ l, l ++ [name])
    (set_fs (insert name (ScriptFile (synthesis_script text voice))) st).

Lemma synthesize_of_subprocess (out : res SynthesisResult) (st1 : State) :
  is_empty (strip text) = false →
  run_synthesis_subprocess text voice method st = (out, st1) →
  (∀ e, out = Raise e →
     synthesize request amb st
     = (Ok (error_response 500 ("TTS generation failed: " +:+ str_exn e)), st1))
  ∧ (∀ error, out = Ok (SynthFailure error) →
     synthesize request amb st
     = (Ok (error_response 500 ("TTS generation failed: " +:+ py_str error)), st1)).
Proof.
  intros Hnonblank Hrun.
  split; intros x ->; unfold synthesize, try_except; fold text voice method;
    rewrite Hnonblank; unfold bind at 1; rewrite Hrun; reflexivity.
Qed.

(** X7. An exception of [subprocess.run] itself, the timeout of 30 seconds
    among them, is not turned into a failure result: it leaves
    [run_synthesis_subprocess] once the temporary script is removed, and
    [/synthesize] answers 500 with the exception's text. Should the script
    be gone already, the [FileNotFoundError] of the cleanup takes the place
    of the original exception. *)
Theorem subprocess_exception_escapes (e : exn) (files : gmap string file) :
  is_empty (strip text) = false →
  child_process name (fs launched_state) = (Raise e, files) →
  let escaped := if bool_decide (is_Some (files !! name)) then e
                 else FileNotFoundError name in
  ∃ st',
    run_synthesis_subprocess text voice method st = (Raise escaped, st')
    ∧ synthesize request amb st
      = (Ok (error_response 500 ("TTS generation failed: " +:+ str_exn escaped)), st')
    ∧ fs st' !! name = None
    ∧ performance_metrics st' = performance_metrics st.
Proof.
  intros Hnonblank Hchild escaped. subst escaped.
  pose proof (run_synthesis_subprocess_unfold text voice method st _ _ Hchild) as Hsub.
  cbv beta iota zeta in Hsub. cbn [fst snd] in Hsub.
  unfold os_unlink in Hsub. cbn [fs set_fs set_launched] in Hsub.
  fold name in Hsub.
  case_bool_decide as Hsome.
  - destruct Hsome as [f Hf]. rewrite Hf in Hsub.
    eexists. split; [exact Hsub|].
    split; [exact (proj1 (synthesize_of_subprocess _ _ Hnonblank Hsub) _ eq_refl)|].
    cbn. split; [apply lookup_delete_eq | reflexivity].
  - assert (Hnone : files !! name = None).
    { destruct (files !! name) eqn:Hl; [|reflexivity]. exfalso. apply Hsome. eauto. }
    rewrite Hnone in Hsub.
    eexists. split; [exact Hsub|].
    split; [exact (proj1 (synthesize_of_subprocess _ _ Hnonblank Hsub) _ eq_refl)|].
    cbn. split; [exact Hnone | reflexivity].
Qed.

(** X8. A worker that ends with an exit code other than 0 makes
    [/synthesize] answer 500 with an error text that quotes the worker's
    standard output and standard error in full; the temporary script is
    removed and no metric is recorded. *)
Theorem nonzero_exit_reported (result : CompletedProcess)
    (files : gmap string file) :
  is_empty (strip text) = false →
  child_process name (fs launched_state) = (Ok result, files) →
  returncode result ≠ 0 →
  is_Some (files !! name) →
  ∃ message st',
    synthesize request amb st
      = (Ok (error_response 500 ("TTS generation failed: " +:+ message)), st')
    ∧ contains (stdout result) message
    ∧ contains (stderr result) message
    ∧ fs st' !! name = None
    ∧ performance_metrics st' = performance_metrics st.
Proof.
  intros Hnonblank Hchild Hcode [f Hf].
  pose proof (run_synthesis_subprocess_unfold text voice method st _ _ Hchild) as Hsub.
  cbv beta iota zeta in Hsub.
  destruct (nonzero_exit_normalised result
              (set_fs (λ _, files) launched_state) Hcode)
    as (message & Hread & Hout & Herr).
  unfold launched_state, name in Hread.
  rewrite Hread in Hsub. cbn [fst snd] in Hsub.
  unfold os_unlink in Hsub. cbn [fs set_fs set_launched] in Hsub.
  fold name in Hsub. rewrite Hf in Hsub.
  eexists message, _.
  split; [exact (proj2 (synthesize_of_subprocess _ _ Hnonblank Hsub) _ eq_refl)|].
  split; [exact Hout|]. split; [exact Herr|]. cbn.
  split; [apply lookup_delete_eq | reflexivity].
Qed.

End WorkerFailures.

Section Scan.
Import Web.

(** X9. The parent's scan of the worker's output returns the first line
    that, stripped, opens and closes with a brace: every line before it
    fails that test, text on other lines is passed over, and the scan
    finds nothing exactly when no line passes. *)
Theorem find_json_line_first (lines : list string) :
  match find_json_line lines with
  | Some line =>
      ∃ before raw after,
        lines = before ++ raw :: after
        ∧ line = strip raw
        ∧ startswith "{" line = true ∧ endswith "}" line = true
        ∧ Forall (λ l, startswith "{" (strip l) && endswith "}" (strip l) = false)
                 before
  | None =>
      Forall (λ l, startswith "{" (strip l) && endswith "}" (strip l) = false)
             lines
  end.
Proof.
  induction lines as [|l lines IH]; cbn [find_json_line]; [constructor|].
  destruct (startswith "{" (strip l) && endswith "}" (strip l)) eqn:Hl.
  - apply andb_prop in Hl as [H1 H2].
    exists [], l, lines. repeat split; auto.
  - destruct (find_json_line lines) as [line|].
    + destruct IH as (before & raw & after & -> & Hline & H1 & H2 & Hall).
      exists (l :: before), raw, after. repeat split; auto.
    + constructor; auto.
Qed.

End Scan.

Section PcmBounds.
Import Web.
Context `{N : Numpy}.

(** A clipped sample is a number within [-1, 1], or the NaN it was. *)
Lemma clip_range (x : float32) :
  match clip (-1) 1 x with
  | Number c => (-1 <= c)%Q ∧ (c <= 1)%Q
  | Infinity _ => False
  | NaN => x = NaN
  end.
Proof.
  destruct x as [q|[]|]; cbn; [|split; discriminate..|reflexivity].
  destruct (Qlt_le_dec q (-1)) as [H|H]; [split; [apply Qle_refl | discriminate]|].
  destruct (Qlt_le_dec 1 q) as [H'|H']; [split; [discriminate | apply Qle_refl]|].
  split; assumption.
Qed.

Lemma wrap_int16_range (z : Z) : -32768 <= wrap_int16 z <= 32767.
Proof.
  unfold wrap_int16.
  pose proof (Z.mod_pos_bound (z + 32768) 65536 ltac:(lia)). lia.
Qed.

(** One sample: a 16-bit value, and short of -32768 unless it is of a NaN. *)
Lemma to_int16_sample_range (x : float32) :
  let v := astype_int16 (times_32767 (clip (-1) 1 x)) in
  -32768 <= v <= 32767 ∧ (x ≠ NaN → -32767 <= v <= 32767).
Proof.
  cbv zeta. pose proof (clip_range x) as Hclip.
  destruct (clip (-1) 1 x) as [c| |]; [|done|].
  - destruct Hclip as [Hlo Hhi].
    pose proof (to_int16_in_range c Hlo Hhi) as Heq.
    rewrite (clip_id c Hlo Hhi) in Heq. rewrite Heq.
    destruct (scaled_sample c Hlo Hhi) as [Hrange _]. lia.
  - cbn. split; [apply wrap_int16_range | congruence].
Qed.

Lemma int16_bytes_range (v : Z) : Forall (λ b, 0 <= b < 256) (int16_bytes v).
Proof.
  unfold int16_bytes.
  assert (Hu : 0 <= v mod 65536 < 65536) by (apply Z.mod_pos_bound; lia).
  repeat constructor.
  - apply Z.mod_pos_bound; lia.
  - apply Z.mod_pos_bound; lia.
  - apply Z.div_pos; lia.
  - apply Z.div_lt_upper_bound; lia.
Qed.

(** A clipped sample at an end of the range: the scaled value is exact. *)
Lemma trunc_saturated (c : Q) (k : Z) :
  (c == inject_Z k)%Q → -1 <= k <= 1 →
  trunc (round_f32 (c * 32767)) = k * 32767.
Proof.
  intros Hc Hk.
  assert (Hp : (c * 32767 == inject_Z (k * 32767))%Q)
    by (rewrite Hc, inject_Z_mult; reflexivity).
  assert (Habs : (Qabs (c * 32767) <= 32767)%Q).
  { rewrite Hp. apply Qabs_Qle_condition.
    change 32767%Q with (inject_Z 32767). rewrite <- inject_Z_opp, <- !Zle_Qle. lia. }
  destruct (round_f32_between _ Habs) as [Hfl Hce].
  rewrite (Qfloor_comp _ _ Hp), Qfloor_Z in Hfl.
  rewrite (Qceiling_comp _ _ Hp), Qceiling_Z in Hce.
  pose proof (trunc_between _ _ _ Hfl Hce). lia.
Qed.

Lemma to_int16_saturated (c : Q) (k : Z) :
  (c == inject_Z k)%Q → -1 <= k <= 1 →
  astype_int16 (times_32767 (Number c)) = k * 32767.
Proof.
  intros Hc Hk. cbn [times_32767 astype_int16].
  rewrite (trunc_saturated c k Hc Hk).
  destruct (Z.leb_spec (-32768) (k * 32767)); [|lia].
  destruct (Z.leb_spec (k * 32767) 32767); [|lia].
  reflexivity.
Qed.

(** X10. Whatever the samples are, the conversion for the WAV file yields
    one 16-bit value per sample; unless the sample is a NaN, whose value
    the host decides, that value lies between -32767 and 32767, so nothing
    wraps around. A sample of 1 or more, an infinity included, becomes
    32767 and a sample of -1 or less becomes -32767. The frames are two
    bytes per sample, each byte between 0 and 255. *)
Theorem pcm_conversion_bounds (audio : list float32) :
  length (to_int16 audio) = length audio
  ∧ Forall2 (λ x v, -32768 <= v <= 32767 ∧ (x ≠ NaN → -32767 <= v <= 32767))
      audio (to_int16 audio)
  ∧ length (tobytes (to_int16 audio)) = (2 * length audio)%nat
  ∧ Forall (λ b, 0 <= b < 256) (tobytes (to_int16 audio))
  ∧ (∀ x, (1 <= x)%Q → to_int16 [Number x] = [32767])
  ∧ to_int16 [Infinity false] = [32767]
  ∧ (∀ x, (x <= -1)%Q → to_int16 [Number x] = [-32767])
  ∧ to_int16 [Infinity true] = [-32767].
Proof.
  split; [apply to_int16_length|].
  split.
  { unfold to_int16. induction audio as [|x audio IH]; [constructor|].
    cbn [map]. constructor; [apply to_int16_sample_range | exact IH]. }
  split; [by rewrite tobytes_length, to_int16_length|].
  split.
  { unfold tobytes. induction (to_int16 audio) as [|v l IH]; [constructor|].
    cbn [flat_map]. apply Forall_app. split; [apply int16_bytes_range | exact IH]. }
  split; [|split; [|split]].
  - intros x Hx. unfold to_int16. cbn [map clip]. f_equal.
    apply (to_int16_saturated _ 1); [|lia].
    destruct (Qlt_le_dec x (-1)) as [H|_].
    + exfalso. apply (Qlt_irrefl x). eapply Qlt_le_trans; [exact H|].
      eapply Qle_trans; [|exact Hx]. discriminate.
    + destruct (Qlt_le_dec 1 x) as [_|H]; [reflexivity|].
      by apply Qle_antisym.
  - vm_compute. reflexivity.
  - intros x Hx. unfold to_int16. cbn [map clip]. f_equal.
    apply (to_int16_saturated _ (-1)); [|lia].
    destruct (Qlt_le_dec x (-1)) as [_|H]; [reflexivity|].
    destruct (Qlt_le_dec 1 x) as [H'|_].
    + exfalso. apply (Qlt_irrefl 1). eapply Qlt_le_trans; [exact H'|].
      eapply Qle_trans; [exact Hx|]. discriminate.
    + by apply Qle_antisym.
  - vm_compute. reflexivity.
Qed.

End PcmBounds.

(* ===================================================================== *)
(** ** Further properties: settings and probes *)
(* ===================================================================== *)

Section SettingsUpdate.
Import Web.
Context `{P : Platform}.

Lemma dict_get_absent {A} (key : string) (data : list (string * A)) :
  key ∉ data.*1 → dict_get key data = None.
Proof.
  induction data as [|[k v] data IH]; intros Hnot; [reflexivity|].
  cbn in Hnot. apply not_elem_of_cons in Hnot as [Hne Hnot].
  cbn [dict_get]. destruct (String.eqb_spec k key) as [->|_]; [done|auto].
Qed.

(** With distinct keys in the payload, the new value of a known key is the
    payload's, or the old one when the payload has none. *)
Lemma update_settings_lookup (data : list (string * json))
    (current : gmap string json) (key : string) :
  NoDup data.*1 →
  update_settings data current !! key =
  match current !! key with
  | None => None
  | Some old => Some (default old (dict_get key data))
  end.
Proof.
  unfold update_settings. revert current.
  induction data as [|[k v] data IH]; intros current Hnodup.
  { cbn. by destruct (current !! key). }
  cbn in Hnodup. apply NoDup_cons in Hnodup as [Hk Hnodup].
  cbn [foldl dict_get]. rewrite (IH _ Hnodup). cbn [fst snd].
  destruct (String.eqb_spec k key) as [->|Hne].
  - rewrite (dict_get_absent key data Hk).
    case_bool_decide as Hin.
    + rewrite lookup_insert_eq. destruct Hin as [old ->]. reflexivity.
    + destruct (current !! key) eqn:Hc; [exfalso; apply Hin; eauto|reflexivity].
  - case_bool_decide; [|reflexivity]. by rewrite lookup_insert_ne.
Qed.

(** X11. A POST to [/settings] whose payload has distinct keys gives every
    key of [APP_SETTINGS] the payload's value for it, or leaves the old
    value when the payload has none; sending the same payload again changes
    nothing more. *)
Theorem settings_post_updates (data : list (string * json)) (st : State) :
  NoDup data.*1 →
  let st' := snd (settings "POST" data st) in
  (∀ key, APP_SETTINGS st' !! key =
          match APP_SETTINGS st !! key with
          | None => None
          | Some old => Some (default old (dict_get key data))
          end)
  ∧ APP_SETTINGS (snd (settings "POST" data st')) = APP_SETTINGS st'.
Proof.
  intros Hnodup st'. subst st'. rewrite !settings_post_state. cbn.
  split; [intros key; by apply update_settings_lookup|].
  apply map_eq. intros key. rewrite !update_settings_lookup by done.
  destruct (APP_SETTINGS st !! key) as [old|]; [|reflexivity].
  cbn. by destruct (dict_get key data).
Qed.

(** X12. A POST whose [log_level] the logging module rejects is not
    answered by the handler, the exception leaving it; by then the
    settings have been updated, the rejected level included, and they stay
    so. *)
Theorem settings_post_bad_log_level (data : list (string * json)) (st : State)
    (name old : json) (e : exn) :
  NoDup data.*1 →
  dict_get "log_level" data = Some name →
  APP_SETTINGS st !! "log_level" = Some old →
  set_log_level name = Raise e →
  ∃ st',
    settings "POST" data st = (Raise e, st')
    ∧ APP_SETTINGS st' !! "log_level" = Some name
    ∧ APP_SETTINGS st' = update_settings data (APP_SETTINGS st).
Proof.
  intros Hnodup Hget Hold Hset.
  unfold settings. cbn. unfold bind, modify, lift. cbn. rewrite Hget, Hset.
  eexists. split; [reflexivity|]. cbn. split; [|reflexivity].
  rewrite (update_settings_lookup _ _ _ Hnodup), Hold, Hget. reflexivity.
Qed.

End SettingsUpdate.

Section Detection.
Import Web Monitoring.

#[local] Ltac settle :=
  cbn; repeat split; intros;
  repeat match goal with
         | H : _ ∧ _ |- _ => destruct H
         | H : ∃ _, _ |- _ => destruct H
         | H : Ok _ = Ok _ |- _ => injection H as <-
         end;
  try done; try lia; try congruence; eauto.

Lemma is_prefix_spec (p s : string) :
  is_prefix p s = true ↔ ∃ post, s = p +:+ post.
Proof.
  revert s. induction p as [|a p IH]; intros s; cbn [is_prefix].
  - split; [intros _; by exists s | done].
  - destruct s as [|b s].
    + split; [done | intros [post H]; discriminate].
    + rewrite andb_true_iff, IH. split.
      * intros [Hab [post ->]]. apply Ascii.eqb_eq in Hab as ->. by exists post.
      * intros [post H]. injection H as -> ->. split; [apply Ascii.eqb_refl | eauto].
Qed.

(** The test is Python's [sub in s]. *)
Lemma is_substring_spec (sub s : string) :
  is_substring sub s = true ↔ contains sub s.
Proof.
  induction s as [|c s IH].
  - cbn [is_substring]. rewrite orb_false_r, is_prefix_spec. split.
    + intros [post H]. by exists "", post.
    + intros ([|x pre] & post & H); [by exists post | discriminate].
  - cbn [is_substring]. rewrite orb_true_iff, is_prefix_spec, IH. split.
    + intros [[post H]|(pre & post & H)].
      * by exists "", post.
      * exists (String c pre), post. by rewrite H.
    + intros ([|x pre] & post & H).
      * left. by exists post.
      * right. injection H as -> ->. by exists pre, post.
Qed.

(** X13. What the capability detection reports, for every answer of the
    host. The NPU counts as available exactly when [lsmod] ran and its
    output mentions [amdxdna]; without it the readiness stays [checking]
    and the hardware [Unknown]. The acceleration status is [npu_ready] only
    with the NPU available and a readiness of [100%]. At most two models
    are counted, and the tier is [npu_ready] exactly with both models and
    the NPU. When [lsmod] cannot be run the initial values are returned as
    they are, and only then is the tier [excellent]. *)
Theorem detect_system_status_invariants (p : Probes) :
  let s := detect_system_status p in
  (npu_available s = true
   ↔ ∃ result, lsmod p = Ok result ∧ contains "amdxdna" (stdout result))
  ∧ (npu_available s = false →
     npu_readiness s = "checking" ∧ hardware_detected s = "Unknown"
     ∧ acceleration_status s = "optimized")
  ∧ (acceleration_status s = "npu_ready" →
     npu_available s = true ∧ npu_readiness s = "100%")
  ∧ (models_loaded s <= 2)%nat
  ∧ (performance_tier s = "npu_ready"
     ↔ models_loaded s = 2%nat ∧ npu_available s = true)
  ∧ (performance_tier s = "excellent" ↔ ∃ e, lsmod p = Raise e)
  ∧ ((∃ e, lsmod p = Raise e) → s = default_status).
Proof.
  cbv zeta. unfold detect_system_status.
  destruct (lsmod p) as [result|e]; [|settle].
  assert (Hcount : (length (filter (λ f, path_exists p f = true) model_files) <= 2)%nat).
  { etransitivity; [apply length_filter|]. reflexivity. }
  set (loaded := length (filter _ model_files)) in *. clearbody loaded.
  destruct (Nat.leb_spec 2 loaded), (Nat.leb_spec 1 loaded); try lia;
    (destruct (is_substring "amdxdna" (stdout result)) eqn:Hnpu;
     [ assert (Hc : contains "amdxdna" (stdout result)) by (by apply is_substring_spec);
       destruct (xrt_smi_examine p) as [xrt|ex];
       [destruct ((returncode xrt =? 0) && is_substring "NPU Phoenix" (stdout xrt))|];
       settle
     | assert (Hc : ¬ contains "amdxdna" (stdout result))
         by (intros H'; apply is_substring_spec in H'; congruence);
       settle ]).
Qed.

End Detection.

(* ===================================================================== *)
(** ** Further properties: the integration *)
(* ===================================================================== *)

Section Availability.
Import Integration.

(** X14. [create_audio] fails only as the standard CPU generation fails:
    when that generation returns on the given arguments, [create_audio]
    returns audio, whatever the accelerator and the session do; and when
    [create_audio] raises, the exception is the one the CPU generation
    raised, and the log ends with the ERROR record of the failure and the
    INFO record of the fallback. *)
Theorem create_audio_fails_only_as_cpu (self : KokoroMLIRNPUIntegration)
    (text : string) (voice : Voice) (speed : Q) (lang : string)
    (start_time end_time : Q) (lg : Log) :
  (∀ r, create (kokoro_standard self) text voice speed lang = Ok r →
     ∃ r' lg', create_audio self text voice speed lang start_time end_time lg
               = (Ok r', lg'))
  ∧ (∀ e lg', create_audio self text voice speed lang start_time end_time lg
              = (Raise e, lg') →
       create (kokoro_standard self) text voice speed lang = Raise e
       ∧ ∃ e0 lg0,
           lg' = lg0 ++ [(ERROR, NpuGenerationFailed e0); (INFO, FallingBackToCpu)]).
Proof.
  destruct (acceleration_enabled self) eqn:Hen.
  - rewrite (create_audio_enabled self text voice speed lang _ _ lg Hen).
    destruct (_create_audio_npu_accelerated _ _ _ _ _ _ _ _) as [[r0|e0] lg0].
    + split; [eauto | discriminate].
    + split.
      * intros r ->. eauto.
      * intros e lg' [= He <-]. split; [exact He | eauto].
  - rewrite (create_audio_disabled self text voice speed lang _ _ lg Hen).
    destruct (create _ _ _ _ _) as [r0|e0].
    + split; [eauto | discriminate].
    + split; [discriminate|].
      intros e lg' [= <- <-]. split; [reflexivity|].
      exists e0, (lg ++ [(INFO, UsingCpuFallback)]).
      by rewrite <- app_assoc.
Qed.

(** X15. The accelerated pipeline never returns a zero-dimensional array.
    Whatever the session puts in its first output slot, once it is an
    array ([np.array] is applied to a value that is not one), an array of
    one dimension or more is returned as it is, whatever the number of its
    dimensions, and a zero-dimensional one as a one-dimensional array of
    its one element; a WARNING is logged in the second case and only
    there. The sample rate is 24000. *)
Theorem scalar_output_normalised (self : KokoroMLIRNPUIntegration)
    (text : string) (voice : Voice) (speed : Q) (lang : string)
    (start_time end_time : Q) (lg : Log)
    (tokens_padded : list (list Z)) (row : StyleRow) (speed1 : list Q)
    (out : output) (rest : list output) (a : ndarray) :
  prepare_inputs self text voice speed lang = Ok (tokens_padded, row, speed1) →
  _handle_npu_optimized_model (npu_session self) tokens_padded row speed1
    = Ok (out :: rest) →
  as_array out = Ok a →
  ∃ audio new,
    _create_audio_npu_accelerated self text voice speed lang start_time end_time lg
    = (Ok (audio, 24000), lg ++ new)
    ∧ audio = (if (ndim a =? 0)%nat then {| shape := [1%nat]; flat := flat a |} else a)
    ∧ ndim audio ≠ 0%nat
    ∧ ((WARNING, AudioIsScalar) ∈ new ↔ ndim a = 0%nat).
Proof.
  intros Hprep Hrun Harr.
  assert (Hnot : ∀ l : Log,
            Forall (λ r, r.1 ≠ WARNING) l → (WARNING, AudioIsScalar) ∉ l).
  { intros l Hall Hin. rewrite Forall_forall in Hall. by apply (Hall _ Hin). }
  unfold _create_audio_npu_accelerated, bind at 1. unfold lift at 1.
  rewrite Hprep. unfold bind at 1. unfold lift at 1. rewrite Hrun.
  unfold bind at 1. unfold lift at 1. cbn [getitem lookup list_lookup].
  set (shown := match out with
                | OutArray a0 => log INFO (RawAudioShape (shape a0))
                | OutObject o =>
                    match obj_shape o with
                    | Some s => log INFO (RawAudioShape s)
                    | None => log INFO (RawAudioValue (obj_str o))
                    end
                end).
  assert (Hshown : ∃ ev, ∀ l, shown l = (Ok tt, l ++ [(INFO, ev)])).
  { subst shown. destruct out as [a0|o]; [by eexists|].
    destruct (obj_shape o); by eexists. }
  destruct Hshown as [ev Hshown].
  unfold bind, lift, log, modify, ret. rewrite Hshown, Harr.
  destruct a as [[|n sh] fl]; cbn.
  - eexists _, _. rewrite <- !app_assoc. cbn [app].
    split; [reflexivity|]. split; [reflexivity|]. split; [done|].
    split; [done|]. intros _. rewrite !elem_of_cons. tauto.
  - eexists _, _. rewrite <- !app_assoc. cbn [app].
    split; [reflexivity|]. split; [reflexivity|]. split; [done|].
    split; [|done]. intros Hin. exfalso. revert Hin. apply Hnot.
    repeat constructor; discriminate.
Qed.

End Availability.

Section Cleanup.
Import Web.
Context `{P : Platform}.

(** X16. Every call of [run_synthesis_subprocess] launches one worker, on
    the temporary script, and when the call ends, with a result or with an
    exception, no file is left at the script's name; the settings and the
    metrics are untouched. *)
Theorem subprocess_always_cleans_up (text voice method : string) (st : State) :
  let outcome := run_synthesis_subprocess text voice method st in
  launched (snd outcome) = launched st ++ [temp_name (fs st)]
  ∧ fs (snd outcome) !! temp_name (fs st) = None
  ∧ APP_SETTINGS (snd outcome) = APP_SETTINGS st
  ∧ performance_metrics (snd outcome) = performance_metrics st.
Proof.
  destruct (run_synthesis_subprocess_effects text voice method st)
    as (Hs & Hm & Hl & Hf).
  cbv zeta. auto.
Qed.

End Cleanup.

(* ===================================================================== *)
(** ** The further properties on concrete inputs *)
(* ===================================================================== *)

Section FurtherInstances.
Import Integration Web Endpoints Monitoring Demo Samples.

Lemma log_buffer_witness :
  let formatted := [Ok (entry "a"); Raise (TypeError "not all arguments converted");
                    Ok (entry "b")] in
  let ls' := emit_all formatted {| log_buffer := []; log_queue := [] |} in
  log_buffer ls' = last_n 1000 ([] ++ accepted formatted)
  ∧ log_queue ls' = [] ++ accepted formatted
  ∧ (length (log_buffer ls') <= 1000)%nat.
Proof.
  apply (log_buffer_keeps_newest
           [Ok (entry "a"); Raise (TypeError "not all arguments converted");
            Ok (entry "b")]
           {| log_buffer := []; log_queue := [] |}).
  cbn. lia.
Defined.

Lemma synthesize_success_witness :
  ∃ resp st' entry,
    @synthesize (host [Number (1 # 2); Number (1 # 4)] "af_heart")
      (hello_request "npu") ambient empty_state = (Ok resp, st')
    ∧ status resp = 200
    ∧ json_getitem (body resp) "filename" = Ok (JStr "real_speech_3f9a1c0e.wav")
    ∧ fs st' !! "/tmp/real_speech_3f9a1c0e.wav"
      = Some (WaveFile {| nchannels := 1; sampwidth := 2; framerate := 24000;
                          frames := [255; 63; 255; 31] |})
    ∧ serve_audio "real_speech_3f9a1c0e.wav" st'
      = SentFile (WaveFile {| nchannels := 1; sampwidth := 2; framerate := 24000;
                              frames := [255; 63; 255; 31] |})
    ∧ last (performance_metrics st') = Some entry
    ∧ metric_method entry = "npu"
    ∧ metric_rtf entry = ((12 - 10) / (inject_Z 2 / 24000))%Q.
Proof.
  destruct (@synthesize_success_effects
              (host [Number (1 # 2); Number (1 # 4)] "af_heart")
              (hello_request "npu") ambient empty_state
              (snd (@run_synthesis_subprocess
                      (host [Number (1 # 2); Number (1 # 4)] "af_heart")
                      "Hello world" "af_heart" "npu" empty_state))
              [Number (1 # 2); Number (1 # 4)] (JNum 24000) (JStr "Real Kokoro TTS")
              (JStr "af_heart") 24000%Q)
    as (resp & st' & entry & H1 & H2 & H3 & _ & _ & H4 & H5 & _ & H7 & H8 & _ & H10);
    [vm_compute; reflexivity | vm_compute; reflexivity | vm_compute; reflexivity
    | reflexivity | reflexivity | vm_compute; split; [discriminate | reflexivity]
    | vm_compute; reflexivity | discriminate |].
  exists resp, st', entry. repeat split; assumption.
Defined.

Lemma worker_round_trip_witness :
  ∃ st',
    @run_synthesis_subprocess (host [Number (1 # 2)] "af_heart")
      "Hello world" "af_heart" "auto" empty_state
    = (Ok (SynthSuccess [Number (1 # 2)] (JNum 24000) (JStr "Real Kokoro TTS")
             (JStr "af_heart")), st')
    ∧ fs st' !! "/tmp/tmpq3f1x9ab.py" = None
    ∧ fs st' !! audio_file = None
    ∧ (∀ path, path ≠ "/tmp/tmpq3f1x9ab.py" → path ≠ audio_file →
         fs st' !! path = fs empty_state !! path).
Proof.
  apply (@worker_success_round_trip (host [Number (1 # 2)] "af_heart")
           (fixed_runtime [Number (1 # 2)]) "Hello world" "af_heart" "auto" empty_state
           (λ _ _, eq_refl) [Number (1 # 2)] 24000).
  - reflexivity.
  - split; vm_compute; reflexivity.
  - discriminate.
Defined.

Lemma worker_failure_witness :
  ∃ st',
    @run_synthesis_subprocess broken_host "Hello world" "af_heart" "auto" empty_state
    = (Ok (SynthFailure (JStr "voices file is corrupt")), st')
    ∧ @synthesize broken_host (hello_request "auto") ambient empty_state
      = (Ok (error_response 500 "TTS generation failed: voices file is corrupt"), st')
    ∧ fs st' !! "/tmp/tmpq3f1x9ab.py" = None
    ∧ (∀ path, path ≠ "/tmp/tmpq3f1x9ab.py" → fs st' !! path = fs empty_state !! path).
Proof.
  apply (@worker_failure_reported broken_host broken_runtime
           "Hello world" "af_heart" "auto" empty_state (λ _ _, eq_refl)
           (hello_request "auto") ambient broken_error);
    try reflexivity.
  split; vm_compute; reflexivity.
Defined.

Lemma subprocess_timeout_witness :
  let timeout := TimeoutExpired [python; "/tmp/tmpq3f1x9ab.py"] 30 in
  ∃ st',
    @run_synthesis_subprocess timeout_host "Hello world" "af_heart" "auto" empty_state
    = (Raise timeout, st')
    ∧ @synthesize timeout_host (hello_request "auto") ambient empty_state
      = (Ok (error_response 500
               ("TTS generation failed: Command '['"
                +:+ "/home/ucadmin/Development/kokoro_npu_project/venv/bin/python"
                +:+ "', '/tmp/tmpq3f1x9ab.py']' timed out after 30 seconds")), st')
    ∧ fs st' !! "/tmp/tmpq3f1x9ab.py" = None
    ∧ performance_metrics st' = performance_metrics empty_state.
Proof.
  exact (@subprocess_exception_escapes timeout_host (hello_request "auto") ambient
           empty_state (TimeoutExpired [python; "/tmp/tmpq3f1x9ab.py"] 30)
           (<["/tmp/tmpq3f1x9ab.py" :=
                ScriptFile (@synthesis_script (table_json []) "Hello world" "af_heart")]>
              ∅) eq_refl eq_refl).
Defined.

Lemma nonzero_exit_witness :
  ∃ message st',
    @synthesize crashed_host (hello_request "auto") ambient empty_state
    = (Ok (error_response 500 ("TTS generation failed: " +:+ message)), st')
    ∧ contains "loading model" message
    ∧ contains "ImportError: libonnxruntime.so" message
    ∧ fs st' !! "/tmp/tmpq3f1x9ab.py" = None
    ∧ performance_metrics st' = performance_metrics empty_state.
Proof.
  apply (@nonzero_exit_reported crashed_host (hello_request "auto") ambient
           empty_state crashed_result
           (<["/tmp/tmpq3f1x9ab.py" :=
                ScriptFile (@synthesis_script (table_json []) "Hello world" "af_heart")]>
              ∅)).
  - reflexivity.
  - reflexivity.
  - discriminate.
  - eexists. apply lookup_insert_eq.
Defined.

Lemma settings_post_updates_witness :
  let data := [("speed", JFloat (3 # 2)); ("theme", JStr "dark");
               ("auto_play", JBool false)] in
  let st' := snd (@settings crashed_host "POST" data empty_state) in
  (∀ key, APP_SETTINGS st' !! key =
          match APP_SETTINGS empty_state !! key with
          | None => None
          | Some old => Some (default old (dict_get key data))
          end)
  ∧ APP_SETTINGS (snd (@settings crashed_host "POST" data st')) = APP_SETTINGS st'.
Proof.
  apply (@settings_post_updates crashed_host
           [("speed", JFloat (3 # 2)); ("theme", JStr "dark");
            ("auto_play", JBool false)] empty_state).
  apply (bool_decide_unpack _). vm_compute. exact I.
Defined.

Lemma settings_bad_log_level_witness :
  ∃ st',
    @settings crashed_host "POST" [("log_level", JStr "LOUD")] empty_state
    = (Raise (OtherError "AttributeError" "LOUD"), st')
    ∧ APP_SETTINGS st' !! "log_level" = Some (JStr "LOUD")
    ∧ APP_SETTINGS st'
      = update_settings [("log_level", JStr "LOUD")] (APP_SETTINGS empty_state).
Proof.
  apply (@settings_post_bad_log_level crashed_host [("log_level", JStr "LOUD")]
           empty_state (JStr "LOUD") (JStr "INFO")
           (OtherError "AttributeError" "LOUD")).
  - apply (bool_decide_unpack _). vm_compute. exact I.
  - reflexivity.
  - vm_compute. reflexivity.
  - reflexivity.
Defined.

Lemma scalar_output_witness :
  let self := init passing_accelerator kokoro scalar_session in
  ∃ audio new,
    _create_audio_npu_accelerated self "hi" (VoiceName "af_heart") 1 "en-us" 0 1 []
    = (Ok (audio, 24000), [] ++ new)
    ∧ audio = {| shape := [1%nat]; flat := [1 # 2]%Q |}
    ∧ ndim audio ≠ 0%nat
    ∧ ((WARNING, AudioIsScalar) ∈ new ↔ ndim (array0 (1 # 2)) = 0%nat).
Proof.
  apply (scalar_output_normalised (init passing_accelerator kokoro scalar_session)
           "hi" (VoiceName "af_heart") 1 "en-us" 0 1 []
           [[0; 104; 105; 0]] [0%Q] [1%Q] (OutArray (array0 (1 # 2))) []
           (array0 (1 # 2)));
    reflexivity.
Defined.

(** An output with a batch dimension is returned with its two dimensions. *)
Example batch_output_unchanged :
  fst (_create_audio_npu_accelerated (init passing_accelerator kokoro batch_session)
         "hi" (VoiceName "af_heart") 1 "en-us" 0 1 [])
  = Ok ({| shape := [1; 3]%nat; flat := [1 # 8; 1 # 4; 1 # 2]%Q |}, 24000).
Proof. vm_compute. reflexivity. Qed.

(** The summary of two generations, in binary64. *)
Example metrics_summary_example :
  let generation rtf :=
    {| metric_timestamp := "2025-07-01T12:00:00"; metric_method := "auto";
       metric_voice := "af_heart"; metric_text_length := 11;
       metric_generation_time := 2; metric_audio_duration := 2 / rtf;
       metric_rtf := rtf; metric_sample_rate := JNum 24000 |} in
  let summary :=
    @get_metrics binary64
      (set_metrics (λ _, [generation (1 # 2); generation (1 # 4)]) empty_state) in
  total_generations summary = 2%nat
  ∧ Qeq_bool (avg_rtf summary) (3 # 8) = true
  ∧ Qeq_bool (avg_time summary) 2 = true
  ∧ methods_used summary = {["auto"]}.
Proof. vm_compute. repeat split. Qed.

(** The detection on a host with the driver, the runtime and both models. *)
Example detect_npu_host :
  let s := detect_system_status npu_probes in
  npu_available s = true ∧ npu_readiness s = "100%"
  ∧ acceleration_status s = "npu_ready" ∧ performance_tier s = "npu_ready"
  ∧ models_loaded s = 2%nat ∧ voices_available s = 54%nat
  ∧ vitisai_provider s = false
  ∧ systems_npu (snd (get_status npu_probes)) = "ready".
Proof. vm_compute. repeat split. Qed.

End FurtherInstances.

(* ===================================================================== *)
(** ** Further properties: system information *)
(* ===================================================================== *)

Section Temperature.
Import Web Monitoring SystemInfo.

Lemma append_cons (a : ascii) (s t : string) :
  String a s +:+ t = String a (s +:+ t).
Proof. reflexivity. Qed.

Lemma split_nonempty (c : ascii) (s : string) : ∃ w ws, split c s = w :: ws.
Proof.
  induction s as [|a s (w & ws & IH)]; cbn [split]; [eauto|].
  destruct (Ascii.eqb a c); [eauto|]. rewrite IH. eauto.
Qed.

(** Splitting at the first separator. *)
Lemma split_at_first (c : ascii) (t r : string) :
  c ∉ list_ascii_of_string t →
  split c (t +:+ String c r) = t :: split c r.
Proof.
  induction t as [|a t IH]; intros Hnot.
  - change ("" +:+ String c r) with (String c r). cbn [split].
    by rewrite Ascii.eqb_refl.
  - cbn [list_ascii_of_string] in Hnot.
    apply not_elem_of_cons in Hnot as [Hne Hnot].
    rewrite append_cons. cbn [split].
    destruct (Ascii.eqb_spec a c) as [->|_]; [done|].
    by rewrite (IH Hnot).
Qed.

(** The first piece of a split reaches at least over a stretch without
    the separator. *)
Lemma split_first_piece (c a : ascii) (t r : string) :
  c ∉ list_ascii_of_string t → a ≠ c →
  ∃ w ws, split c (t +:+ String a r) = (t +:+ String a w) :: ws.
Proof.
  intros Hnot Hne. induction t as [|b t IH].
  - change ("" +:+ String a r) with (String a r). cbn [split].
    destruct (Ascii.eqb_spec a c) as [->|_]; [done|].
    destruct (split_nonempty c r) as (w & ws & ->). by exists w, ws.
  - cbn [list_ascii_of_string] in Hnot.
    apply not_elem_of_cons in Hnot as [Hb Hnot].
    destruct (IH Hnot) as (w & ws & Hsplit).
    rewrite append_cons. cbn [split].
    destruct (Ascii.eqb_spec b c) as [->|_]; [done|].
    rewrite Hsplit. by exists w, ws.
Qed.

Lemma plus_in_line (label rest : string) :
  is_substring "+" (label +:+ String "+" rest) = true.
Proof. apply is_substring_spec. by exists label, rest. Qed.

(** The temperature of a line [<label>+<temp><degree>...]. *)
Lemma temp_of_line_parsed (label temp rest : string) :
  "+"%char ∉ list_ascii_of_string label →
  "+"%char ∉ list_ascii_of_string temp →
  degree ∉ list_ascii_of_string temp →
  temp_of_line (label +:+ String "+" (temp +:+ String degree rest)) = Ok temp.
Proof.
  intros Hlabel Hplus Hdeg. unfold temp_of_line.
  rewrite plus_in_line, (split_at_first _ _ _ Hlabel).
  destruct (split_first_piece "+" degree temp rest Hplus ltac:(done))
    as (w & ws & ->).
  unfold getitem. cbn. rewrite (split_at_first _ _ _ Hdeg). reflexivity.
Qed.

(** X17. [get_system_info] never measures the NPU utilisation or the disk
    space: both entries are always [N/A]. When [sensors] succeeds and the
    first line that mentions [Tctl:] reads [<label>+<temp><degree>...],
    with no plus sign in the label and neither a plus nor a degree sign in
    the temperature, the CPU temperature is reported as [<temp><degree>C];
    when [sensors] cannot be run or ends with an error code it is [N/A]. *)
Theorem cpu_temperature_parsed (p : InfoProbes) (temp_result : CompletedProcess)
    (label temp rest : string) :
  sensors p = Ok temp_result →
  returncode temp_result = 0 →
  is_substring "Tctl:" (stdout temp_result) = true →
  List.find (is_substring "Tctl:") (split newline (stdout temp_result))
    = Some (label +:+ String "+" (temp +:+ String degree rest)) →
  "+"%char ∉ list_ascii_of_string label →
  "+"%char ∉ list_ascii_of_string temp →
  degree ∉ list_ascii_of_string temp →
  cpu_temp (get_system_info p) = temp +:+ String degree "C"
  ∧ npu_util (get_system_info p) = "N/A"
  ∧ disk_space (get_system_info p) = "N/A"
  ∧ (∀ q, (∀ r, sensors q = Ok r → returncode r ≠ 0) →
          cpu_temp (get_system_info q) = "N/A").
Proof.
  intros Hsensors Hcode Htctl Hfind Hlabel Hplus Hdeg.
  split; [|split; [reflexivity|split; [reflexivity|]]].
  - cbn. unfold read_cpu_temp. rewrite Hsensors, Hcode, Htctl, Hfind. cbn.
    by rewrite (temp_of_line_parsed _ _ _ Hlabel Hplus Hdeg).
  - intros q Hq. cbn. unfold read_cpu_temp.
    destruct (sensors q) as [r|e]; [|reflexivity].
    specialize (Hq r eq_refl).
    by rewrite (proj2 (Z.eqb_neq _ _) Hq).
Qed.

End Temperature.

Section TemperatureInstances.
Import Web Monitoring SystemInfo Samples.

Lemma cpu_temperature_witness :
  cpu_temp (get_system_info info_probes) = "45.5" +:+ String degree "C"
  ∧ npu_util (get_system_info info_probes) = "N/A"
  ∧ disk_space (get_system_info info_probes) = "N/A"
  ∧ (∀ q, (∀ r, sensors q = Ok r → returncode r ≠ 0) →
          cpu_temp (get_system_info q) = "N/A").
Proof.
  apply (cpu_temperature_parsed info_probes
           {| returncode := 0; stdout := sensors_output; stderr := "" |}
           "Tctl:         " "45.5" (String "C" "")).
  - reflexivity.
  - reflexivity.
  - vm_compute. reflexivity.
  - vm_compute. reflexivity.
  - apply (bool_decide_unpack _). vm_compute. exact I.
  - apply (bool_decide_unpack _). vm_compute. exact I.
  - apply (bool_decide_unpack _). vm_compute. exact I.
Defined.

End TemperatureInstances.
